(** * Cervical-Cancer-Classifier: the orchestration logic of frontend/src/App.jsx

    A shallow embedding of the React component [App]: its state cells, its
    event handlers ([handleFileSelect], [handleModelChange], [handlePredict]),
    the metrics effect ([loadMetrics]) and the derived presentation values
    ([getConfidenceColor], the [Object.entries] row list).

    Asynchronous functions are cut at their [await]: the part that runs
    synchronously with the call, and the continuation that runs when the axios
    promise settles.  What leaves the component (axios requests, console
    output, object URLs) is recorded in an explicit browser record. *)

From Stdlib Require Import ZArith NArith List String Ascii Bool Lia.
From Stdlib Require Import DecimalString Sorted Permutation.
From Stdlib Require Import Floats.SpecFloat Floats.PrimFloat Floats.FloatOps.
Import ListNotations.

Set Warnings "-inexact-float,-register-all".
Local Open Scope string_scope.

(** ** JavaScript values and the built-ins App.jsx relies on *)
Module JS.

(** A JS Number is an IEEE binary64 value; [spec_float] is the Standard
    Library's specification of them. *)
Definition Number : Type := spec_float.

(** The literals of the source, read as binary64 by the literal parser. *)
Definition lit_0_8 : Number := Eval cbv in Prim2SF 0.8%float.
Definition lit_0_6 : Number := Eval cbv in Prim2SF 0.6%float.
Definition lit_0_90 : Number := Eval cbv in Prim2SF 0.90%float.
Definition lit_0_89 : Number := Eval cbv in Prim2SF 0.89%float.

(** Numbers of the specification's scenarios. *)
Definition lit_0_93 : Number := Eval cbv in Prim2SF 0.93%float.
Definition lit_0_05 : Number := Eval cbv in Prim2SF 0.05%float.
Definition lit_0_01 : Number := Eval cbv in Prim2SF 0.01%float.

(** [x > y] and [x <= y] on Numbers: false as soon as one side is NaN. *)
Definition gt (x y : Number) : bool := SFltb y x.
Definition le (x y : Number) : bool := SFleb x y.

Definition isNaN (x : Number) : bool :=
  match x with S754_nan => true | _ => false end.

(** Values as they come out of a parsed JSON body, plus [undefined].  An
    object is its property list in creation order. *)
Inductive Value : Type :=
| Undefined
| Null
| Boolean (b : bool)
| Num (n : Number)
| Str (s : string)
| Arr (items : list Value)
| Obj (props : list (string * Value)).

(** ToBoolean, as used by [||], [&&], [!] and [if]. *)
Definition truthy (v : Value) : bool :=
  match v with
  | Undefined | Null => false
  | Boolean b => b
  | Num n =>
      match n with
      | S754_zero _ | S754_nan => false
      | _ => true
      end
  | Str s => negb (String.eqb s "")
  | Arr _ | Obj _ => true
  end.

(** [a || b] *)
Definition or (a b : Value) : Value := if truthy a then a else b.

Fixpoint lookup (k : string) (props : list (string * Value)) : Value :=
  match props with
  | [] => Undefined
  | (k', v) :: rest => if String.eqb k k' then v else lookup k rest
  end.

(** [v.k] for the property names the source reads ([metrics], [error],
    [data]): [None] is the TypeError thrown on [undefined] and [null];
    primitives and arrays have no such property. *)
Definition get (v : Value) (k : string) : option Value :=
  match v with
  | Undefined | Null => None
  | Obj props => Some (lookup k props)
  | _ => Some Undefined
  end.

(** [v?.k] *)
Definition get_opt (v : Value) (k : string) : Value :=
  match get v k with
  | Some x => x
  | None => Undefined
  end.

(** *** Property order

    An array index is the canonical decimal spelling of an integer from 0 to
    2^32 - 2.  The own keys of an object are listed with the array indices
    first, in ascending numeric order, and then the other names in creation
    order; [Object.entries] follows that order. *)
Definition digit (a : ascii) : option N :=
  let n := N_of_ascii a in
  if (N.leb 48 n && N.leb n 57)%bool then Some (n - 48)%N else None.

Fixpoint parse_digits (s : string) (acc : N) : option N :=
  match s with
  | EmptyString => Some acc
  | String a rest =>
      match digit a with
      | Some d => parse_digits rest (acc * 10 + d)%N
      | None => None
      end
  end.

Definition array_index (k : string) : option N :=
  match k with
  | EmptyString => None
  | String a rest =>
      if (Ascii.eqb a "0" && negb (String.eqb rest ""))%bool then None
      else
        match parse_digits k 0 with
        | Some n => if N.leb n 4294967294 then Some n else None
        | None => None
        end
  end.

Definition is_named (kv : string * Value) : bool :=
  match array_index (fst kv) with
  | Some _ => false
  | None => true
  end.

Definition indexProps (props : list (string * Value))
  : list (N * (string * Value)) :=
  flat_map (fun kv =>
              match array_index (fst kv) with
              | Some n => [(n, kv)]
              | None => []
              end) props.

Definition namedProps (props : list (string * Value))
  : list (string * Value) :=
  filter is_named props.

Fixpoint insert_index (x : N * (string * Value))
         (l : list (N * (string * Value))) : list (N * (string * Value)) :=
  match l with
  | [] => [x]
  | y :: rest =>
      if N.leb (fst x) (fst y) then x :: l else y :: insert_index x rest
  end.

(** The order [sort_index] establishes. *)
Definition index_le (a b : N * (string * Value)) : Prop :=
  (fst a <= fst b)%N.

Definition sort_index (l : list (N * (string * Value)))
  : list (N * (string * Value)) :=
  fold_right insert_index [] l.

Definition ownEntries (props : list (string * Value))
  : list (string * Value) :=
  (map snd (sort_index (indexProps props)) ++ namedProps props)%list.

Definition index_key (i : nat) : string :=
  NilEmpty.string_of_uint (Nat.to_uint i).

Fixpoint indexed {A : Type} (i : nat) (l : list A) : list (string * A) :=
  match l with
  | [] => []
  | x :: rest => (index_key i, x) :: indexed (S i) rest
  end.

Fixpoint chars (s : string) : list Value :=
  match s with
  | EmptyString => []
  | String a rest => Str (String a EmptyString) :: chars rest
  end.

(** [Object.entries(v)]: [None] is the TypeError on [undefined] and [null]. *)
Definition Object_entries (v : Value) : option (list (string * Value)) :=
  match v with
  | Undefined | Null => None
  | Boolean _ | Num _ => Some []
  | Str s => Some (indexed 0 (chars s))
  | Arr items => Some (indexed 0 items)
  | Obj props => Some (ownEntries props)
  end.

End JS.

(** ** Presentation derivation *)
Module Presentation.
Import JS.

(** App.jsx, lines 82-86; the earlier version of the component has the same
    function. *)
Definition getConfidenceColor (confidence : Number) : string :=
  if gt confidence lit_0_8 then "text-green-600"
  else if gt confidence lit_0_6 then "text-yellow-600"
  else "text-red-600".

(** Lines 216-222: the rows of the probability list, one per entry of
    [prediction.all_predictions], each made of the class name and its
    probability. *)
Definition orderedProbabilities (all_predictions : Value)
  : option (list (string * Value)) :=
  option_map (map (fun '(className, prob) => (className, prob)))
             (Object_entries all_predictions).

(** The three tiers of the specification are the three colour classes. *)
Definition high : string := "text-green-600".
Definition medium : string := "text-yellow-600".
Definition low : string := "text-red-600".

End Presentation.

(** ** The browser side: files, object URLs, axios *)
Module Browser.
Import JS.

(** A file picked in the file input. *)
Record File : Type := mkFile { file_name : string; file_bytes : string }.

(** [URL.createObjectURL] hands out a fresh URL at every call; a URL is
    identified by its slot in the document's blob URL store. *)
Inductive ObjectURL : Type := BlobURL (slot : nat).

Inductive FormValue : Type :=
| FormFile (f : File)
| FormText (s : string).

Inductive Request : Type :=
| Get (url : string)
| Post (url : string) (formData : list (string * FormValue))
       (headers : list (string * string)).

Record Response : Type := mkResponse { status : nat; data : Value }.

(** What a rejected axios promise carries: [err.response] is absent when no
    reply arrived (network failure, timeout). *)
Record AxiosError : Type := mkAxiosError { response : option Response }.

Inductive Settled : Type :=
| Fulfilled (r : Response)
| Rejected (err : AxiosError).

(** axios' default [validateStatus]. *)
Definition validateStatus (st : nat) : bool :=
  Nat.leb 200 st && Nat.ltb st 300.

(** How axios settles the promise of a request: [None] is a request that got
    no reply. *)
Definition settle (reply : option Response) : Settled :=
  match reply with
  | None => Rejected (mkAxiosError None)
  | Some r =>
      if validateStatus (status r) then Fulfilled r
      else Rejected (mkAxiosError (Some r))
  end.

(** What [console.error] is given in [loadMetrics]. *)
Inductive Thrown : Type :=
| ThrownAxios (err : AxiosError)
| ThrownTypeError.

End Browser.

(** ** The component *)
Module App.
Import JS Browser.

(** The eight [useState] cells of [App] (lines 6-13). *)
Record State : Type := mkState {
  selectedFile : option File;
  previewUrl : option ObjectURL;
  prediction : Value;
  loading : bool;
  error : Value;
  selectedModel : string;
  evaluationMetrics : Value;
  loadingMetrics : bool
}.

(** The component state together with what the component has done to the
    outside: axios calls (oldest first), console output, object URLs. *)
Record World : Type := mkWorld {
  state : State;
  requests : list Request;
  console : list (string * Thrown);
  objectURLs : list File
}.

(** The values given to [useState]. *)
Definition initialState : State :=
  {| selectedFile := None;
     previewUrl := None;
     prediction := Null;
     loading := false;
     error := Str "";
     selectedModel := "vgg16";
     evaluationMetrics := Null;
     loadingMetrics := false |}.

Definition blank : World :=
  {| state := initialState; requests := []; console := []; objectURLs := [] |}.

(** *** A state monad for the statements of a handler *)
Definition M (A : Type) : Type := World -> A * World.

Definition ret {A : Type} (a : A) : M A := fun w => (a, w).

Definition bind {A B : Type} (m : M A) (k : A -> M B) : M B :=
  fun w => let (a, w') := m w in k a w'.

Definition exec {A : Type} (m : M A) (w : World) : World := snd (m w).

Definition read {A : Type} (f : State -> A) : M A := fun w => (f (state w), w).

Definition modify (f : State -> State) : M unit :=
  fun w =>
    (tt, {| state := f (state w);
            requests := requests w;
            console := console w;
            objectURLs := objectURLs w |}).

Declare Scope handler_scope.
Delimit Scope handler_scope with handler.
Notation "x <- m ;; k" := (bind m (fun x => k))
  (at level 61, m at next level, right associativity) : handler_scope.
Notation "m ;; k" := (bind m (fun _ => k))
  (at level 61, right associativity) : handler_scope.
Local Open Scope handler_scope.

(** *** The state setters *)
Definition setSelectedFile (v : option File) : M unit :=
  modify (fun s =>
    mkState v (previewUrl s) (prediction s) (loading s) (error s)
            (selectedModel s) (evaluationMetrics s) (loadingMetrics s)).

Definition setPreviewUrl (v : option ObjectURL) : M unit :=
  modify (fun s =>
    mkState (selectedFile s) v (prediction s) (loading s) (error s)
            (selectedModel s) (evaluationMetrics s) (loadingMetrics s)).

Definition setPrediction (v : Value) : M unit :=
  modify (fun s =>
    mkState (selectedFile s) (previewUrl s) v (loading s) (error s)
            (selectedModel s) (evaluationMetrics s) (loadingMetrics s)).

Definition setLoading (v : bool) : M unit :=
  modify (fun s =>
    mkState (selectedFile s) (previewUrl s) (prediction s) v (error s)
            (selectedModel s) (evaluationMetrics s) (loadingMetrics s)).

Definition setError (v : Value) : M unit :=
  modify (fun s =>
    mkState (selectedFile s) (previewUrl s) (prediction s) (loading s) v
            (selectedModel s) (evaluationMetrics s) (loadingMetrics s)).

Definition setSelectedModel (v : string) : M unit :=
  modify (fun s =>
    mkState (selectedFile s) (previewUrl s) (prediction s) (loading s)
            (error s) v (evaluationMetrics s) (loadingMetrics s)).

Definition setEvaluationMetrics (v : Value) : M unit :=
  modify (fun s =>
    mkState (selectedFile s) (previewUrl s) (prediction s) (loading s)
            (error s) (selectedModel s) v (loadingMetrics s)).

Definition setLoadingMetrics (v : bool) : M unit :=
  modify (fun s =>
    mkState (selectedFile s) (previewUrl s) (prediction s) (loading s)
            (error s) (selectedModel s) (evaluationMetrics s) v).

(** *** Calls that leave the component *)
Definition axios_send (r : Request) : M unit :=
  fun w =>
    (tt, {| state := state w;
            requests := (requests w ++ [r])%list;
            console := console w;
            objectURLs := objectURLs w |}).

Definition console_error (msg : string) (e : Thrown) : M unit :=
  fun w =>
    (tt, {| state := state w;
            requests := requests w;
            console := (console w ++ [(msg, e)])%list;
            objectURLs := objectURLs w |}).

Definition createObjectURL (f : File) : M ObjectURL :=
  fun w =>
    (BlobURL (List.length (objectURLs w)),
     {| state := state w;
        requests := requests w;
        console := console w;
        objectURLs := (objectURLs w ++ [f])%list |}).

(** The file an object URL stands for. *)
Definition resolveObjectURL (u : ObjectURL) (w : World) : option File :=
  match u with BlobURL slot => nth_error (objectURLs w) slot end.

(** *** loadMetrics (lines 20-37) *)
Definition metricsUrl (modelType : string) : string :=
  "http://localhost:5000/api/metrics/" ++ modelType.

(** The object literal of lines 28-33 and 89-94. *)
Definition defaultMetrics : Value :=
  Obj [("accuracy", Num lit_0_90);
       ("precision", Num lit_0_90);
       ("recall", Num lit_0_89);
       ("f1_score", Num lit_0_89)].

(** Up to the [await]: the request is on its way. *)
Definition loadMetrics (modelType : string) : M unit :=
  setLoadingMetrics true ;;
  axios_send (Get (metricsUrl modelType)).

Definition loadMetrics_catch (err : Thrown) : M unit :=
  console_error "Failed to load metrics:" err ;;
  setEvaluationMetrics defaultMetrics.

(** From the [await] on, once the promise has settled.  Reading
    [response.data.metrics] is inside the [try]: its TypeError lands in the
    [catch] as well. *)
Definition loadMetrics_await (settled : Settled) : M unit :=
  match settled with
  | Fulfilled response =>
      match get (data response) "metrics" with
      | Some metrics => setEvaluationMetrics metrics
      | None => loadMetrics_catch ThrownTypeError
      end
  | Rejected err => loadMetrics_catch (ThrownAxios err)
  end ;;
  setLoadingMetrics false.

(** *** handleFileSelect (lines 39-47); [files] is [event.target.files] *)
Definition handleFileSelect (files : list File) : M unit :=
  match nth_error files 0 with
  | Some file =>
      setSelectedFile (Some file) ;;
      url <- createObjectURL file ;;
      setPreviewUrl (Some url) ;;
      setPrediction Null ;;
      setError (Str "")
  | None => ret tt
  end.

(** *** handleModelChange (lines 49-52) *)
Definition handleModelChange (modelType : string) : M unit :=
  setSelectedModel modelType ;;
  setPrediction Null.

(** *** handlePredict (lines 54-80) *)
Definition predictUrl : string := "http://localhost:5000/api/predict".

Definition noFileMessage : string := "Please select an image first".
Definition fallbackMessage : string := "Failed to make prediction".

(** Lines 63-72: the form data and the call it is posted with. *)
Definition predictRequest (f : File) (modelType : string) : Request :=
  Post predictUrl
       [("file", FormFile f); ("model_type", FormText modelType)]
       [("Content-Type", "multipart/form-data")].

(** Up to the [await]. *)
Definition handlePredict : M unit :=
  file <- read selectedFile ;;
  match file with
  | None => setError (Str noFileMessage)
  | Some f =>
      setLoading true ;;
      setError (Str "") ;;
      model <- read selectedModel ;;
      axios_send (predictRequest f model)
  end.

(** [err.response?.data?.error] *)
Definition serverError (err : AxiosError) : Value :=
  match response err with
  | None => Undefined
  | Some r => get_opt (data r) "error"
  end.

(** From the [await] on. *)
Definition handlePredict_await (settled : Settled) : M unit :=
  match settled with
  | Fulfilled response => setPrediction (data response)
  | Rejected err => setError (or (serverError err) (Str fallbackMessage))
  end ;;
  setLoading false.

(** *** What the render wires up *)

(** Line 261: the submit button is disabled while loading or without a file;
    a disabled button delivers no click. *)
Definition submitDisabled (s : State) : bool :=
  loading s || match selectedFile s with None => true | Some _ => false end.

Definition clickSubmit : M unit :=
  disabled <- read submitDisabled ;;
  if disabled then ret tt else handlePredict.

(** Lines 16-18: after a render in which [selectedModel] differs from its
    value at the previous render, the effect calls [loadMetrics]. *)
Definition useEffect_selectedModel (previous : string) : M unit :=
  current <- read selectedModel ;;
  if String.eqb previous current then ret tt else loadMetrics current.

(** Line 89: the metrics shown. *)
Definition metrics (s : State) : Value :=
  or (evaluationMetrics s) defaultMetrics.

(** The first render runs the effect once, for the initial model. *)
Definition mount : World := exec (loadMetrics (selectedModel initialState)) blank.

(** The two values the model buttons pass (lines 11, 130, 141). *)
Definition modelTypes : list string := ["cnn"; "vgg16"].

Definition recognizedModel (modelType : string) : bool :=
  existsb (String.eqb modelType) modelTypes.

Inductive Event : Type :=
| FileChange (files : list File)
| ModelChange (modelType : string)
| Submit
| MetricsSettled (settled : Settled)
| PredictSettled (settled : Settled).

Definition handler (e : Event) : M unit :=
  match e with
  | FileChange files => handleFileSelect files
  | ModelChange modelType => handleModelChange modelType
  | Submit => clickSubmit
  | MetricsSettled settled => loadMetrics_await settled
  | PredictSettled settled => handlePredict_await settled
  end.

(** One turn of the event loop: the handler, then the effects of the
    re-render. *)
Definition react (e : Event) (w : World) : World :=
  exec (handler e ;; useEffect_selectedModel (selectedModel (state w))) w.

Definition run (trace : list Event) (w : World) : World :=
  fold_left (fun acc e => react e acc) trace w.

End App.

(** ** The scenarios of the specification, and a few more *)
Module Scenario.
Import JS Browser App.

Definition smear : File := mkFile "smear.png" "PNG".

(** The body of a successful classification. *)
Definition allPredictions : Value :=
  Obj [("Negative", Num lit_0_93);
       ("Low", Num lit_0_05);
       ("High", Num lit_0_01);
       ("Carcinoma", Num lit_0_01)].



(** The same body without its [all_predictions]. *)
Definition bodyNoProbabilities : Value :=
  Obj [("prediction", Str "Negative");
       ("confidence", Num lit_0_93);
       ("model_type", Str "vgg16")].

Definition replyTooLarge : Response :=
  mkResponse 400 (Obj [("error", Str "file too large")]).

Definition replyServerDown : Response :=
  mkResponse 500 (Str "Internal Server Error").

(** Metrics replies of the two models. *)
Definition metricsCnn : Value :=
  Obj [("accuracy", Num lit_0_89); ("precision", Num lit_0_89);
       ("recall", Num lit_0_89); ("f1_score", Num lit_0_89)].

Definition metricsVgg16 : Value :=
  Obj [("accuracy", Num lit_0_93); ("precision", Num lit_0_93);
       ("recall", Num lit_0_93); ("f1_score", Num lit_0_93)].

Definition replyCnn : Response :=
  mkResponse 200 (Obj [("metrics", metricsCnn)]).

Definition replyVgg16 : Response :=
  mkResponse 200 (Obj [("metrics", metricsVgg16)]).

(** A 200 reply whose [metrics] is not a metrics object. *)
Definition replyBadMetrics : Response :=
  mkResponse 200 (Obj [("metrics", Str "unavailable")]).

(** Class labels that are numerals, most probable first. *)
Definition numberedClasses : list (string * Value) :=
  [("1", Num lit_0_93); ("0", Num lit_0_05)].

End Scenario.

(** ** Proof steps shared by the facts below *)
Module Steps.
Import JS Browser App.

Ltac world w :=
  let s := fresh "s" in
  destruct w as [s ? ? ?]; destruct s.

(** Unfold one turn of the event loop down to the record it builds. *)
Ltac turn :=
  unfold react, run, exec, handler, clickSubmit, useEffect_selectedModel,
    handleFileSelect, handleModelChange, handlePredict, handlePredict_await,
    loadMetrics_await, loadMetrics_catch, loadMetrics, bind, read, ret;
  simpl.

End Steps.

(** ** The metrics panel (lines 313-337) *)
Module Panel.
Import JS Browser App.

(** The literal [0] that ends each chain. *)
Definition lit_0 : Number := Eval cbv in Prim2SF 0%float.

(** [m.primary || m.alternate || 0], the value that is then scaled and
    printed; [None] is the TypeError of reading a property of [undefined] or
    [null].  The alternate is read only when the primary is falsy. *)
Definition metricValue (m : Value) (primary alternate : string)
  : option Value :=
  match get m primary with
  | None => None
  | Some a =>
      if truthy a then Some a
      else
        match get m alternate with
        | None => None
        | Some b => Some (or b (Num lit_0))
        end
  end.

Definition shownAccuracy (s : State) : option Value :=
  metricValue (metrics s) "accuracy" "accuracy_score".

Definition shownPrecision (s : State) : option Value :=
  metricValue (metrics s) "precision" "precision_score".

Definition shownRecall (s : State) : option Value :=
  metricValue (metrics s) "recall" "recall_score".

Definition shownF1 (s : State) : option Value :=
  metricValue (metrics s) "f1_score" "f1".

(** Lines 300-361: the spinner while [loadingMetrics], otherwise the four
    values. *)
Inductive MetricsPanel : Type :=
| MetricsSpinner
| MetricsValues (accuracy precision recall f1 : Value).

(** [None] is an exception thrown while the panel is built. *)
Definition metricsPanel (s : State) : option MetricsPanel :=
  if loadingMetrics s then Some MetricsSpinner
  else
    match shownAccuracy s, shownPrecision s, shownRecall s, shownF1 s with
    | Some a, Some p, Some r, Some f => Some (MetricsValues a p r f)
    | _, _, _, _ => None
    end.

End Panel.

(** ** The part of the render that reads the request cells *)
Module Render.
Import JS Browser App.

(** What React takes as a child: a string or a number is text; a boolean,
    [null] and [undefined] show nothing; an array is its items, one after
    the other; a plain object is refused with an exception. *)
Fixpoint validChild (v : Value) : bool :=
  match v with
  | Obj _ => false
  | Arr items => forallb validChild items
  | _ => true
  end.

(** The receiver of a string method call such as [v.toUpperCase()]: the
    call throws a TypeError unless [v] is a string. *)
Definition stringReceiver (v : Value) : option string :=
  match v with
  | Str s => Some s
  | _ => None
  end.

(** The results panel (lines 186-240), as the values it is printed from:
    the model type of the badge (line 196, shown in upper case), the label
    (line 203), the confidence (lines 205-206, coloured by
    [getConfidenceColor] and printed as a percentage) and the probability
    rows (lines 216-235). *)
Record ResultsPanel : Type := mkResultsPanel {
  shownModel : string;
  shownLabel : Value;
  shownConfidence : Value;
  shownRows : list (string * Value)
}.

(** The panel of a truthy [prediction]; [None] is an exception: reading a
    property of nothing, [toUpperCase] on what is no string,
    [Object.entries] of [undefined] or [null], an object as a child. *)
Definition resultsPanel (prediction : Value) : option ResultsPanel :=
  match get prediction "model_type" with
  | None => None
  | Some model_type =>
      match stringReceiver model_type with
      | None => None
      | Some modelType =>
          match get prediction "prediction",
                get prediction "confidence",
                get prediction "all_predictions" with
          | Some label, Some confidence, Some all_predictions =>
              if validChild label then
                match Presentation.orderedProbabilities all_predictions with
                | Some rows =>
                    Some (mkResultsPanel modelType label confidence rows)
                | None => None
                end
              else None
          | _, _, _ => None
          end
      end
  end.

(** The submit button's spinner (line 268), the error banner (lines
    243-256, [error && ...]) and the results panel (lines 186-240,
    [prediction && ...]).  A falsy [prediction] or [error] gives no panel
    and no banner. *)
Record Screen : Type := mkScreen {
  spinner : bool;
  banner : option Value;
  results : option ResultsPanel
}.

(** [None]: the render throws, and React, with no error boundary around
    [App], takes the whole component off the page.  Nothing else in the
    render reads a value that can make it throw. *)
Definition render (s : State) : option Screen :=
  match
    (if truthy (prediction s)
     then option_map Some (resultsPanel (prediction s))
     else Some None)
  with
  | None => None
  | Some panel =>
      if truthy (error s) then
        if validChild (error s)
        then Some (mkScreen (loading s) (Some (error s)) panel)
        else None
      else Some (mkScreen (loading s) None panel)
  end.

End Render.

(** ** What a run of events leaves behind *)
Module Observations.
Import JS Browser App.

(** The order of the three colour classes. *)
Definition tierRank (colour : string) : nat :=
  if String.eqb colour Presentation.high then 2
  else if String.eqb colour Presentation.medium then 1
  else 0.

(** The URL of the metrics request sent last. *)
Fixpoint lastGet (rs : list Request) : option string :=
  match rs with
  | [] => None
  | r :: rest =>
      match lastGet rest with
      | Some u => Some u
      | None =>
          match r with
          | Get u => Some u
          | Post _ _ _ => None
          end
      end
  end.

(** The files the file input delivered, one per event that carried any. *)
Fixpoint pickedFiles (trace : list Event) : list File :=
  match trace with
  | [] => []
  | FileChange (file :: _) :: rest => file :: pickedFiles rest
  | _ :: rest => pickedFiles rest
  end.

(** The events a user can cause through the two model buttons only. *)
Definition fromButtons (e : Event) : Prop :=
  match e with
  | ModelChange modelType => recognizedModel modelType = true
  | _ => True
  end.

(** A request that names one of the two model types. *)
Definition namesRecognizedModel (r : Request) : Prop :=
  exists modelType,
    recognizedModel modelType = true /\
    (r = Get (metricsUrl modelType) \/
     exists f, r = predictRequest f modelType).

(** The selected model and every request sent name one of the two. *)
Definition onlyRecognized (w : World) : Prop :=
  recognizedModel (selectedModel (state w)) = true /\
  Forall namesRecognizedModel (requests w).

(** The selected file and its preview go together. *)
Definition previewOfFile (w : World) : Prop :=
  match selectedFile (state w), previewUrl (state w) with
  | None, None => True
  | Some f, Some u => resolveObjectURL u w = Some f
  | _, _ => False
  end.

Definition isPost (r : Request) : bool :=
  match r with
  | Post _ _ _ => true
  | Get _ => false
  end.

Definition posts (w : World) : nat :=
  List.length (filter isPost (requests w)).

(** The metrics requests sent so far, oldest first. *)
Definition metricsRequests (w : World) : list Request :=
  filter (fun r => negb (isPost r)) (requests w).

(** The metrics request a turn adds: one for the new model when a model
    click changes the model, none otherwise. *)
Definition metricsRequestOf (e : Event) (w : World) : list Request :=
  match e with
  | ModelChange modelType =>
      if String.eqb (selectedModel (state w)) modelType then []
      else [Get (metricsUrl modelType)]
  | _ => []
  end.

(** A session keeps count of the prediction requests that are out: a
    request that is sent adds one, a settlement takes one away, and no
    settlement comes when none is out. *)
Record Session : Type := mkSession { world : World; inFlight : nat }.

Definition advance (e : Event) (s : Session) : option Session :=
  let w' := react e (world s) in
  let started := posts w' - posts (world s) in
  match e with
  | PredictSettled _ =>
      match inFlight s with
      | O => None
      | S n => Some (mkSession w' (n + started))
      end
  | _ => Some (mkSession w' (inFlight s + started))
  end.

Fixpoint play (trace : list Event) (s : Session) : option Session :=
  match trace with
  | [] => Some s
  | e :: rest =>
      match advance e s with
      | Some s' => play rest s'
      | None => None
      end
  end.

Definition opening : Session := mkSession mount 0.

(** A session is steady when one request is out and [loading] is set, with
    a file selected, or none is out and [loading] is not set. *)
Definition steady (s : Session) : Prop :=
  (loading (state (world s)) = true /\ inFlight s = 1 /\
   selectedFile (state (world s)) <> None) \/
  (loading (state (world s)) = false /\ inFlight s = 0).

(** How many prediction requests a run of events settles. *)
Fixpoint predictSettlements (trace : list Event) : nat :=
  match trace with
  | [] => 0
  | PredictSettled _ :: rest => S (predictSettlements rest)
  | _ :: rest => predictSettlements rest
  end.

End Observations.

(** ** The earlier version of the component (no model selection) *)
Module Legacy.
Import JS Browser.

(** The five [useState] cells (lines 6-10). *)
Record State : Type := mkState {
  selectedFile : option File;
  previewUrl : option ObjectURL;
  prediction : Value;
  loading : bool;
  error : Value
}.

Record World : Type := mkWorld {
  state : State;
  requests : list Request;
  objectURLs : list File
}.

Definition mount : World :=
  {| state := {| selectedFile := None;
                 previewUrl := None;
                 prediction := Null;
                 loading := false;
                 error := Str "" |};
     requests := [];
     objectURLs := [] |}.

(** Lines 12-20. *)
Definition handleFileSelect (files : list File) (w : World) : World :=
  match nth_error files 0 with
  | Some file =>
      {| state := {| selectedFile := Some file;
                     previewUrl := Some (BlobURL (List.length (objectURLs w)));
                     prediction := Null;
                     loading := loading (state w);
                     error := Str "" |};
         requests := requests w;
         objectURLs := (objectURLs w ++ [file])%list |}
  | None => w
  end.

(** Lines 31-39: the form data holds the file only. *)
Definition predictRequest (f : File) : Request :=
  Post App.predictUrl
       [("file", FormFile f)]
       [("Content-Type", "multipart/form-data")].

(** Lines 22-47, up to the [await]. *)
Definition handlePredict (w : World) : World :=
  match selectedFile (state w) with
  | None =>
      {| state := {| selectedFile := selectedFile (state w);
                     previewUrl := previewUrl (state w);
                     prediction := prediction (state w);
                     loading := loading (state w);
                     error := Str App.noFileMessage |};
         requests := requests w;
         objectURLs := objectURLs w |}
  | Some f =>
      {| state := {| selectedFile := selectedFile (state w);
                     previewUrl := previewUrl (state w);
                     prediction := prediction (state w);
                     loading := true;
                     error := Str "" |};
         requests := (requests w ++ [predictRequest f])%list;
         objectURLs := objectURLs w |}
  end.

(** Lines 22-47, from the [await] on. *)
Definition handlePredict_await (settled : Settled) (w : World) : World :=
  {| state :=
       {| selectedFile := selectedFile (state w);
          previewUrl := previewUrl (state w);
          prediction :=
            match settled with
            | Fulfilled response => data response
            | Rejected _ => prediction (state w)
            end;
          loading := false;
          error :=
            match settled with
            | Fulfilled _ => error (state w)
            | Rejected err =>
                or (App.serverError err) (Str App.fallbackMessage)
            end |};
     requests := requests w;
     objectURLs := objectURLs w |}.

(** Line 190: the same gate on the submit button. *)
Definition clickSubmit (w : World) : World :=
  if loading (state w)
     || match selectedFile (state w) with None => true | Some _ => false end
  then w
  else handlePredict w.

Inductive Event : Type :=
| FileChange (files : list File)
| Submit
| PredictSettled (settled : Settled).

Definition react (e : Event) (w : World) : World :=
  match e with
  | FileChange files => handleFileSelect files w
  | Submit => clickSubmit w
  | PredictSettled settled => handlePredict_await settled w
  end.

Definition run (trace : list Event) (w : World) : World :=
  fold_left (fun acc e => react e acc) trace w.

(** The same event, delivered to the later version. *)
Definition later (e : Event) : App.Event :=
  match e with
  | FileChange files => App.FileChange files
  | Submit => App.Submit
  | PredictSettled settled => App.PredictSettled settled
  end.

(** What the later version shares with this one: the five cells, the
    prediction requests without their [model_type] field, the object
    URLs. *)
Definition withoutModel (r : Request) : list Request :=
  match r with
  | Get _ => []
  | Post url formData headers =>
      [Post url
            (filter (fun field => negb (String.eqb (fst field) "model_type"))
                    formData)
            headers]
  end.

Definition shared (w : App.World) : World :=
  {| state := {| selectedFile := App.selectedFile (App.state w);
                 previewUrl := App.previewUrl (App.state w);
                 prediction := App.prediction (App.state w);
                 loading := App.loading (App.state w);
                 error := App.error (App.state w) |};
     requests := flat_map withoutModel (App.requests w);
     objectURLs := App.objectURLs w |}.

End Legacy.

(** ** Lemmas on Number comparison *)
Module NumberFacts.
Import JS.

Lemma compare_cont_Eq (p q : positive) :
  Pos.compare_cont Eq p q = Pos.compare p q.
Proof. reflexivity. Qed.

(** The thresholds are binary64 numbers: the doubles nearest to 0.8 and 0.6,
    with the same exponent. *)
Lemma thresholds_binary64 :
  lit_0_8 = S754_finite false 7205759403792794 (-53) /\
  lit_0_6 = S754_finite false 5404319552844595 (-53) /\
  valid_binary 53 1024 lit_0_8 = true /\
  valid_binary 53 1024 lit_0_6 = true.
Proof. repeat split. Qed.

(** Comparing in the other direction flips the outcome. *)
Lemma SFcompare_flip (x y : Number) :
  SFcompare x y = option_map CompOpp (SFcompare y x).
Proof.
  destruct x as [sx|sx| |sx mx ex], y as [sy|sy| |sy my ey]; simpl;
    try reflexivity;
    try (destruct sx; reflexivity);
    try (destruct sy; reflexivity);
    try (destruct sx, sy; reflexivity).
  destruct sx, sy; simpl; try reflexivity;
    rewrite (Z.compare_antisym ey ex);
    destruct (Z.compare ey ex); simpl; try reflexivity;
    change (Pos.compare_cont Eq mx my) with (Pos.compare mx my);
    change (Pos.compare_cont Eq my mx) with (Pos.compare my mx);
    rewrite (Pos.compare_antisym my mx);
    destruct (Pos.compare my mx); reflexivity.
Qed.

(** On numbers, [x <= y] is the negation of [x > y]. *)
Lemma le_not_gt (x y : Number) :
  isNaN x = false -> isNaN y = false -> le x y = negb (gt x y).
Proof.
  intros Hx Hy. unfold le, gt, SFleb, SFltb.
  rewrite (SFcompare_flip y x).
  destruct (SFcompare x y) as [[ | | ]|] eqn:E; simpl; try reflexivity.
  destruct x, y; simpl in *; discriminate.
Qed.

(** Two positive finite numbers are ordered by exponent, then mantissa. *)
Lemma SFcompare_pos_finite (m1 m2 : positive) (e1 e2 : Z) :
  SFcompare (S754_finite false m1 e1) (S754_finite false m2 e2) =
  Some match Z.compare e1 e2 with
       | Lt => Lt
       | Gt => Gt
       | Eq => Pos.compare m1 m2
       end.
Proof. reflexivity. Qed.

(** Whatever is above 0.8 is above 0.6. *)
Lemma gt_0_8_gt_0_6 (c : Number) :
  gt c lit_0_8 = true -> gt c lit_0_6 = true.
Proof.
  unfold gt, SFltb, lit_0_8, lit_0_6.
  destruct c as [s|s| |[|] m e]; try (intros; (discriminate || reflexivity)).
  - destruct s; intros; (discriminate || reflexivity).
  - rewrite !SFcompare_pos_finite.
    destruct (Z.compare_spec (-53) e) as [He|He|He]; try discriminate;
      [|reflexivity].
    destruct (Pos.compare_spec 7205759403792794 m) as [Hm|Hm|Hm];
      try discriminate.
    intros _.
    assert (Hlt : (5404319552844595 < m)%positive)
      by (eapply Pos.lt_trans; [|exact Hm]; reflexivity).
    apply Pos.compare_lt_iff in Hlt. rewrite Hlt. reflexivity.
Qed.

End NumberFacts.

Module PresentationFacts.
Import JS Presentation NumberFacts.


(** C1. For every confidence value [c] (a number), [getConfidenceColor]
    returns the high tier exactly when [c > 0.8], the medium tier exactly when
    [0.6 < c <= 0.8], and the low tier exactly when [c <= 0.6]; the two
    boundary values 0.8 and 0.6 themselves fall into the lower tier. *)
Theorem getConfidenceColor_tiers (c : Number) (Hnum : isNaN c = false) :
  (getConfidenceColor c = high <-> gt c lit_0_8 = true) /\
  (getConfidenceColor c = medium <->
     gt c lit_0_6 = true /\ le c lit_0_8 = true) /\
  (getConfidenceColor c = low <-> le c lit_0_6 = true) /\
  getConfidenceColor lit_0_8 = medium /\
  getConfidenceColor lit_0_6 = low.
Proof.
  rewrite !(le_not_gt c) by (assumption || reflexivity).
  pose proof (gt_0_8_gt_0_6 c) as Htr.
  unfold getConfidenceColor, high, medium, low.
  destruct (gt c lit_0_8) eqn:E8; destruct (gt c lit_0_6) eqn:E6; simpl;
    repeat split; intros; try discriminate; try reflexivity;
    try (specialize (Htr eq_refl); discriminate);
    try (destruct H; discriminate).
Qed.

Lemma getConfidenceColor_tiers_witness :
  isNaN lit_0_93 = false /\ getConfidenceColor lit_0_93 = high.
Proof.
  split; [reflexivity|].
  apply (getConfidenceColor_tiers lit_0_93 eq_refl); reflexivity.
Defined.

(** A missing or non-numeric confidence reaches the comparison as NaN and is
    shown in the low tier. *)
Lemma getConfidenceColor_NaN : getConfidenceColor S754_nan = low.
Proof. reflexivity. Qed.

(** *** The order of [Object.entries] *)

Lemma destructured_rows (l : list (string * Value)) :
  map (fun '(className, prob) => (className, prob)) l = l.
Proof.
  induction l as [|[k v] l IH]; simpl; [reflexivity | now rewrite IH].
Qed.

Lemma orderedProbabilities_Obj (probs : list (string * Value)) :
  orderedProbabilities (Obj probs) = Some (ownEntries probs).
Proof.
  unfold orderedProbabilities. simpl. now rewrite destructured_rows.
Qed.

Lemma indexProps_none (props : list (string * Value)) :
  (forall k v, In (k, v) props -> array_index k = None) ->
  indexProps props = [] /\ namedProps props = props.
Proof.
  unfold indexProps, namedProps.
  induction props as [|[k v] props IH]; intros Hnamed; simpl;
    [split; reflexivity|].
  unfold is_named at 1. simpl.
  rewrite (Hnamed k v) by (left; reflexivity).
  destruct IH as [IHi IHn];
    [intros k' v' Hin; apply (Hnamed k' v'); right; exact Hin|].
  simpl. fold (filter is_named props). rewrite IHi, IHn. split; reflexivity.
Qed.

Lemma insert_index_In x y l :
  In x (insert_index y l) -> x = y \/ In x l.
Proof.
  induction l as [|z l IH]; simpl.
  - intros [H|[]]; left; now symmetry.
  - destruct (N.leb (fst y) (fst z)); simpl.
    + intros [H|H]; [left; now symmetry | right; exact H].
    + intros [H|H]; [right; left; exact H|].
      destruct (IH H) as [H'|H']; [left | right; right]; exact H'.
Qed.

Lemma sort_index_In x l : In x (sort_index l) -> In x l.
Proof.
  induction l as [|y l IH]; simpl; [tauto|].
  intros H. destruct (insert_index_In _ _ _ H) as [H'|H'].
  - left. now symmetry.
  - right. now apply IH.
Qed.

Lemma insert_index_Sorted x l :
  Sorted index_le l -> Sorted index_le (insert_index x l).
Proof.
  induction l as [|y l IH]; simpl; intros Hs.
  - repeat constructor.
  - destruct (N.leb (fst x) (fst y)) eqn:E.
    + constructor; [exact Hs|]. constructor. now apply N.leb_le.
    + apply Sorted_inv in Hs. destruct Hs as [Hs Hhd].
      constructor; [now apply IH|].
      apply N.leb_gt in E.
      destruct l as [|z l]; simpl.
      * constructor. unfold index_le. apply N.lt_le_incl. exact E.
      * apply HdRel_inv in Hhd.
        destruct (N.leb (fst x) (fst z)); constructor;
          [unfold index_le; apply N.lt_le_incl; exact E | exact Hhd].
Qed.

Lemma sort_index_Sorted l : Sorted index_le (sort_index l).
Proof.
  induction l as [|x l IH]; simpl; [constructor|].
  now apply insert_index_Sorted.
Qed.

Lemma insert_index_Permutation x l :
  Permutation (insert_index x l) (x :: l).
Proof.
  induction l as [|y l IH]; simpl; [apply Permutation_refl|].
  destruct (N.leb (fst x) (fst y)); [apply Permutation_refl|].
  eapply perm_trans; [apply perm_skip; exact IH | apply perm_swap].
Qed.

Lemma sort_index_Permutation l : Permutation (sort_index l) l.
Proof.
  induction l as [|x l IH]; simpl; [apply perm_nil|].
  eapply perm_trans; [apply insert_index_Permutation|].
  apply perm_skip. exact IH.
Qed.

Lemma indexProps_entries (props : list (string * Value)) :
  map snd (indexProps props)
  = filter (fun kv => negb (is_named kv)) props.
Proof.
  unfold indexProps.
  induction props as [|kv props IH]; simpl; [reflexivity|].
  unfold is_named at 1.
  destruct (array_index (fst kv)) as [n|]; simpl; rewrite IH; reflexivity.
Qed.

(** C9, as the code has it.  When no class label is an array index, the rows
    are the entries of the mapping in exactly its insertion order.  In every
    mapping the labels that are not array indices keep their insertion order;
    the entries whose labels are array indices, all of them, come before
    them, in ascending numeric order. *)
Theorem orderedProbabilities_insertion_order (probs : list (string * Value)) :
  ((forall k v, In (k, v) probs -> array_index k = None) ->
   orderedProbabilities (Obj probs) = Some probs) /\
  (exists front,
      orderedProbabilities (Obj probs)
        = Some (map snd front ++ filter is_named probs)%list /\
      Sorted index_le front /\
      (forall n kv, In (n, kv) front ->
                    array_index (fst kv) = Some n /\ In kv probs) /\
      Permutation (map snd front)
                  (filter (fun kv => negb (is_named kv)) probs)).
Proof.
  rewrite orderedProbabilities_Obj. split.
  - intros Hnamed. unfold ownEntries.
    destruct (indexProps_none probs Hnamed) as [Hi Hn].
    now rewrite Hi, Hn.
  - exists (sort_index (indexProps probs)). split; [reflexivity|].
    split; [apply sort_index_Sorted|]. split.
    + intros n kv Hin. apply sort_index_In in Hin.
      unfold indexProps in Hin. rewrite in_flat_map in Hin.
      destruct Hin as [kv' [Hin' Hin]].
      destruct (array_index (fst kv')) as [m|] eqn:E; simpl in Hin;
        [|contradiction].
      destruct Hin as [Heq|[]]. inversion Heq; subst. split; assumption.
    + rewrite <- indexProps_entries. apply Permutation_map.
      apply sort_index_Permutation.
Qed.

Lemma orderedProbabilities_insertion_order_witness :
  orderedProbabilities Scenario.allPredictions
  = Some [("Negative", Num lit_0_93); ("Low", Num lit_0_05);
          ("High", Num lit_0_01); ("Carcinoma", Num lit_0_01)].
Proof.
  apply (proj1 (orderedProbabilities_insertion_order
                  [("Negative", Num lit_0_93); ("Low", Num lit_0_05);
                   ("High", Num lit_0_01); ("Carcinoma", Num lit_0_01)])).
  intros k v Hin. simpl in Hin.
  repeat (destruct Hin as [Hin|Hin]; [inversion Hin; reflexivity|]).
  contradiction.
Defined.

(** C9 fails as stated: labels that are numerals are put in numeric order,
    whatever order the mapping was built in. *)
Lemma orderedProbabilities_numerals_reordered :
  orderedProbabilities (Obj Scenario.numberedClasses)
  = Some [("0", Num lit_0_05); ("1", Num lit_0_93)] /\
  orderedProbabilities (Obj Scenario.numberedClasses)
  <> Some Scenario.numberedClasses.
Proof.
  split; [reflexivity|].
  intros H. vm_compute in H. discriminate H.
Qed.

End PresentationFacts.

(** ** Selection state *)
Module SelectionFacts.
Import JS Browser App Steps.
Local Open Scope handler_scope.

Lemma useEffect_same_model (w : World) :
  exec (useEffect_selectedModel (selectedModel (state w))) w = w.
Proof.
  unfold exec, useEffect_selectedModel, bind, read.
  rewrite String.eqb_refl. reflexivity.
Qed.

(** A turn whose handler leaves [selectedModel] alone runs no effect. *)
Lemma react_no_effect (e : Event) (w : World) :
  selectedModel (state (exec (handler e) w)) = selectedModel (state w) ->
  react e w = exec (handler e) w.
Proof.
  intros Hsame. unfold react, exec, bind in *.
  destruct (handler e w) as [u w'] eqn:Hh. simpl in *.
  unfold useEffect_selectedModel, bind, read.
  rewrite <- Hsame, String.eqb_refl. reflexivity.
Qed.

Lemma nth_error_snoc {A : Type} (l : list A) (x : A) :
  nth_error (l ++ [x]) (List.length l) = Some x.
Proof. induction l as [|y l IH]; simpl; [reflexivity | exact IH]. Qed.

Lemma nth_error_snoc_before {A : Type} (l : list A) (x y : A) :
  nth_error ((l ++ [x]) ++ [y]) (List.length l) = Some x.
Proof. induction l as [|z l IH]; simpl; [reflexivity | exact IH]. Qed.

(** A model click sends a metrics request exactly when the model changes. *)
Lemma react_ModelChange_requests (w : World) (modelType : string) :
  requests (react (ModelChange modelType) w) =
    (requests w ++
       if String.eqb (selectedModel (state w)) modelType then []
       else [Get (metricsUrl modelType)])%list.
Proof.
  world w. turn.
  destruct (String.eqb selectedModel0 modelType); simpl;
    [symmetry; apply app_nil_r | reflexivity].
Qed.

(** C10. A file-select event that carries no file leaves everything as it
    was: file, preview, prediction, error message and all the rest, whether
    one looks at the handler alone or at the whole turn. *)
Theorem handleFileSelect_no_file_unchanged (w : World) :
  exec (handleFileSelect []) w = w /\ react (FileChange []) w = w.
Proof.
  split; [reflexivity|].
  rewrite react_no_effect; reflexivity.
Qed.

(** C7, as the code has it.  Selecting a file (the event carries one) and
    selecting a model both clear the prediction, from every state.
    Selecting the same file a second time clears it again and leaves every
    cell as after the first selection, except the preview URL: that is a
    fresh object URL each time, different from the first, for the same
    file. *)
Theorem selection_change_clears_prediction
        (w : World) (file : File) (others : list File) (modelType : string) :
  let once := react (FileChange (file :: others)) w in
  let twice := react (FileChange (file :: others)) once in
  prediction (state once) = Null /\
  prediction (state (react (ModelChange modelType) w)) = Null /\
  prediction (state (exec (handleFileSelect (file :: others)) w)) = Null /\
  prediction (state (exec (handleModelChange modelType) w)) = Null /\
  prediction (state twice) = Null /\
  error (state twice) = Str "" /\
  selectedFile (state twice) = Some file /\
  (forall u, state (exec (setPreviewUrl u) twice)
             = state (exec (setPreviewUrl u) once)) /\
  (exists u1 u2,
      previewUrl (state once) = Some u1 /\
      previewUrl (state twice) = Some u2 /\
      u1 <> u2 /\
      resolveObjectURL u1 twice = Some file /\
      resolveObjectURL u2 twice = Some file).
Proof.
  intros once twice.
  assert (Honce : once = exec (handleFileSelect (file :: others)) w)
    by (apply react_no_effect; world w; reflexivity).
  assert (Htwice : twice = exec (handleFileSelect (file :: others)) once)
    by (apply react_no_effect; rewrite Honce; world w; reflexivity).
  rewrite Htwice, Honce. clear.
  world w. turn.
  repeat split.
  - destruct (String.eqb selectedModel0 modelType); reflexivity.
  - eexists _, _. repeat split; simpl.
    + intros Heq. injection Heq as Hlen.
      rewrite length_app in Hlen. simpl in Hlen. lia.
    + apply nth_error_snoc_before.
    + apply nth_error_snoc.
Qed.

(** C7 fails as stated: after the second selection of the same file the
    state is not the state after the first; the preview URL has changed. *)
Lemma handleFileSelect_twice_differs :
  let once := react (FileChange [Scenario.smear]) mount in
  let twice := react (FileChange [Scenario.smear]) once in
  previewUrl (state once) = Some (BlobURL 0) /\
  previewUrl (state twice) = Some (BlobURL 1) /\
  state twice <> state once.
Proof.
  repeat split. intros H. apply (f_equal previewUrl) in H. discriminate H.
Qed.

(** C8, as the code has it: [handleModelChange] takes any value.  The model
    becomes that value, the prediction is cleared, nothing else in the state
    changes, no error is set, and the metrics of the value are fetched when it
    differs from the model selected before. *)
Theorem handleModelChange_any_value (w : World) (modelType : string) :
  let w' := react (ModelChange modelType) w in
  selectedModel (state w') = modelType /\
  prediction (state w') = Null /\
  error (state w') = error (state w) /\
  selectedFile (state w') = selectedFile (state w) /\
  previewUrl (state w') = previewUrl (state w) /\
  loading (state w') = loading (state w) /\
  evaluationMetrics (state w') = evaluationMetrics (state w) /\
  requests w' =
    (requests w ++
       if String.eqb (selectedModel (state w)) modelType then []
       else [Get (metricsUrl modelType)])%list.
Proof.
  world w. turn.
  destruct (String.eqb selectedModel0 modelType); simpl; repeat split.
  symmetry. apply app_nil_r.
Qed.

(** C8 fails as stated: a value outside the two model types is taken like any
    other. *)
Lemma handleModelChange_unrecognized_taken :
  recognizedModel "resnet50" = false /\
  selectedModel (state (react (ModelChange "resnet50") mount)) = "resnet50" /\
  react (ModelChange "resnet50") mount <> mount /\
  requests (react (ModelChange "resnet50") mount) =
    [Get "http://localhost:5000/api/metrics/vgg16";
     Get "http://localhost:5000/api/metrics/resnet50"].
Proof.
  repeat split; try reflexivity.
  intros H. apply (f_equal requests) in H. discriminate H.
Qed.

End SelectionFacts.

(** ** Metrics loader *)
Module MetricsFacts.
Import JS Browser App Observations Steps SelectionFacts.
Local Open Scope handler_scope.

Lemma react_MetricsSettled (settled : Settled) (w : World) :
  react (MetricsSettled settled) w = exec (loadMetrics_await settled) w.
Proof.
  apply react_no_effect. world w.
  destruct settled as [r|err]; turn; [|reflexivity].
  destruct (get (data r) "metrics"); reflexivity.
Qed.

(** C5, as the code has it.  When the promise of the metrics request is
    rejected (no reply, or a status outside 2xx), or when the body of a 2xx
    reply is [null] so that reading its [metrics] throws, the metrics become
    exactly the default object and the failure, the rejection or the
    TypeError, goes to the console.  The error message is never touched by a
    metrics fetch.  The body of a 2xx reply is not validated: its [metrics]
    is stored as received and nothing is logged; it is what is shown when it
    is truthy, and the default is shown in its place when it is missing or
    falsy. *)
Theorem loadMetrics_fallback (w : World) :
  (forall reply,
      match reply with
      | None => True
      | Some r => validateStatus (status r) = false
      end ->
      let w' := react (MetricsSettled (settle reply)) w in
      evaluationMetrics (state w') = defaultMetrics /\
      metrics (state w') = defaultMetrics /\
      console w' =
        (console w ++
           [("Failed to load metrics:",
             ThrownAxios (mkAxiosError reply))])%list) /\
  (forall code body,
      get body "metrics" = None ->
      let w' :=
        react (MetricsSettled (Fulfilled (mkResponse code body))) w in
      evaluationMetrics (state w') = defaultMetrics /\
      metrics (state w') = defaultMetrics /\
      console w' =
        (console w ++ [("Failed to load metrics:", ThrownTypeError)])%list) /\
  (forall code,
      let w' :=
        react (MetricsSettled (settle (Some (mkResponse code Null)))) w in
      evaluationMetrics (state w') = defaultMetrics /\
      List.length (console w') = S (List.length (console w))) /\
  (forall settled,
      error (state (react (MetricsSettled settled) w)) = error (state w)) /\
  (forall code body received,
      get body "metrics" = Some received ->
      let w' :=
        react (MetricsSettled (Fulfilled (mkResponse code body))) w in
      evaluationMetrics (state w') = received /\
      console w' = console w /\
      (truthy received = true -> metrics (state w') = received) /\
      (truthy received = false -> metrics (state w') = defaultMetrics)) /\
  (forall code props,
      evaluationMetrics
        (state (react (MetricsSettled
                         (Fulfilled (mkResponse code (Obj props)))) w))
      = lookup "metrics" props).
Proof.
  split; [|split; [|split; [|split; [|split]]]].
  - intros reply H w'. subst w'.
    assert (Hrej : settle reply = Rejected (mkAxiosError reply))
      by (destruct reply as [r|]; unfold settle; [rewrite H|]; reflexivity).
    rewrite Hrej, react_MetricsSettled. world w. repeat split.
  - intros code body Hthrows w'. subst w'.
    rewrite react_MetricsSettled. world w. turn. rewrite Hthrows.
    repeat split.
  - intros code w'. subst w'.
    rewrite react_MetricsSettled. world w. unfold settle. simpl.
    destruct (validateStatus code); simpl;
      (split; [reflexivity|]); rewrite length_app; apply Nat.add_1_r.
  - intros settled. rewrite react_MetricsSettled. world w.
    destruct settled as [r|err]; turn; [|reflexivity].
    destruct (get (data r) "metrics"); reflexivity.
  - intros code body received Hget w'. subst w'.
    rewrite react_MetricsSettled. world w. turn. rewrite Hget. simpl.
    unfold metrics, or. simpl.
    repeat split; intros Ht; rewrite Ht; reflexivity.
  - intros code props. rewrite react_MetricsSettled. world w. reflexivity.
Qed.

(** The scenario of the specification, the metrics request answered with
    HTTP 500; a request that gets no reply; a 200 reply with the body
    [null]; a 200 reply with metrics. *)
Lemma loadMetrics_fallback_witness :
  evaluationMetrics
    (state (react (MetricsSettled (settle (Some Scenario.replyServerDown)))
                  mount))
  = defaultMetrics /\
  console (react (MetricsSettled (settle None)) mount)
  = [("Failed to load metrics:", ThrownAxios (mkAxiosError None))] /\
  console (react (MetricsSettled (Fulfilled (mkResponse 200 Null))) mount)
  = [("Failed to load metrics:", ThrownTypeError)] /\
  metrics (state (react (MetricsSettled (Fulfilled Scenario.replyCnn)) mount))
  = Scenario.metricsCnn.
Proof.
  pose proof (loadMetrics_fallback mount)
    as [Hrejected [Hthrows [_ [_ [Hkept _]]]]].
  split; [|split; [|split]].
  - apply (Hrejected (Some Scenario.replyServerDown) eq_refl).
  - apply (Hrejected None I).
  - apply (Hthrows 200 Null eq_refl).
  - apply (Hkept 200 (Obj [("metrics", Scenario.metricsCnn)])
                 Scenario.metricsCnn eq_refl).
    reflexivity.
Defined.

(** C5 fails as stated: a 200 reply with a malformed body is not a failure
    for [loadMetrics]; its [metrics] becomes the metrics state and is what
    is shown. *)
Lemma loadMetrics_malformed_body_kept :
  let w := react (MetricsSettled (settle (Some Scenario.replyBadMetrics)))
                 mount in
  evaluationMetrics (state w) = Str "unavailable" /\
  evaluationMetrics (state w) <> defaultMetrics /\
  metrics (state w) <> defaultMetrics.
Proof.
  repeat split; intros H; discriminate H.
Qed.

Lemma react_Submit_requests (w : World) :
  requests (react Submit w) =
    (requests w ++
       match selectedFile (state w) with
       | Some f =>
           if loading (state w) then []
           else [predictRequest f (selectedModel (state w))]
       | None => []
       end)%list.
Proof.
  world w. turn. unfold submitDisabled. simpl.
  destruct loading0, selectedFile0; simpl;
    rewrite ?String.eqb_refl; simpl; rewrite ?app_nil_r; reflexivity.
Qed.

(** C6, as the code has it.  The effect calls [loadMetrics] once at the
    first render and once for each change of [selectedModel], and for nothing
    else: a file selection, a submit click and a settled request of either
    kind send no metrics request.  A settled request is applied when it
    settles, whatever was issued or applied before: of two settlements, the
    one that arrives last decides the metrics. *)
Theorem loadMetrics_last_settled_wins (w : World) :
  requests mount = [Get (metricsUrl "vgg16")] /\
  (forall modelType,
      requests (react (ModelChange modelType) w) =
        (requests w ++
           if String.eqb (selectedModel (state w)) modelType then []
           else [Get (metricsUrl modelType)])%list) /\
  (forall files, requests (react (FileChange files) w) = requests w) /\
  (forall settled,
      requests (react (MetricsSettled settled) w) = requests w /\
      requests (react (PredictSettled settled) w) = requests w) /\
  (requests (react Submit w) = requests w \/
   exists f,
     requests (react Submit w) =
       (requests w ++ [predictRequest f (selectedModel (state w))])%list) /\
  (forall e,
      metricsRequests (react e w) =
        (metricsRequests w ++ metricsRequestOf e w)%list) /\
  (forall first last,
      evaluationMetrics
        (state (react (MetricsSettled last)
                      (react (MetricsSettled first) w)))
      = evaluationMetrics (state (react (MetricsSettled last) w))).
Proof.
  assert (Hfile : forall files,
             requests (react (FileChange files) w) = requests w).
  { intros [|f files]; rewrite react_no_effect; world w; reflexivity. }
  assert (Hmetrics : forall settled,
             requests (react (MetricsSettled settled) w) = requests w).
  { intros settled. rewrite react_MetricsSettled. world w.
    destruct settled as [r|err]; turn; [|reflexivity].
    destruct (get (data r) "metrics"); reflexivity. }
  assert (Hpredict : forall settled,
             requests (react (PredictSettled settled) w) = requests w).
  { intros settled.
    rewrite react_no_effect; world w; destruct settled; reflexivity. }
  split; [reflexivity|]. split; [|split; [|split; [|split; [|split]]]].
  - intros modelType. apply react_ModelChange_requests.
  - exact Hfile.
  - intros settled. split; [apply Hmetrics | apply Hpredict].
  - rewrite react_Submit_requests.
    destruct (selectedFile (state w)) as [f|];
      [|left; apply app_nil_r].
    destruct (loading (state w)); [left; apply app_nil_r|].
    right. exists f. reflexivity.
  - intros e. unfold metricsRequests, metricsRequestOf.
    destruct e as [files|modelType| |settled|settled].
    + rewrite Hfile. symmetry. apply app_nil_r.
    + rewrite react_ModelChange_requests, filter_app.
      destruct (String.eqb (selectedModel (state w)) modelType);
        reflexivity.
    + rewrite react_Submit_requests, filter_app.
      destruct (selectedFile (state w)) as [f|];
        [destruct (loading (state w))|]; reflexivity.
    + rewrite Hmetrics. symmetry. apply app_nil_r.
    + rewrite Hpredict. symmetry. apply app_nil_r.
  - intros first last. rewrite !react_MetricsSettled. world w.
    destruct first as [r1|e1], last as [r2|e2]; turn;
      try destruct (get (data r1) "metrics");
      try destruct (get (data r2) "metrics"); reflexivity.
Qed.

(** C6 fails as stated.  The model is switched from vgg16 to cnn while the
    first request is still out; the cnn reply arrives and is applied; the
    vgg16 reply arrives after it and replaces it. *)
Lemma loadMetrics_stale_reply_applied :
  let w1 := react (ModelChange "cnn") mount in
  let w2 := react (MetricsSettled (settle (Some Scenario.replyCnn))) w1 in
  let w3 := react (MetricsSettled (settle (Some Scenario.replyVgg16))) w2 in
  requests w3 = [Get (metricsUrl "vgg16"); Get (metricsUrl "cnn")] /\
  selectedModel (state w3) = "cnn" /\
  evaluationMetrics (state w2) = Scenario.metricsCnn /\
  evaluationMetrics (state w3) = Scenario.metricsVgg16 /\
  evaluationMetrics (state w3) <> Scenario.metricsCnn.
Proof.
  repeat split. intros H. vm_compute in H. discriminate H.
Qed.

End MetricsFacts.

(** ** Inference requester *)
Module InferenceFacts.
Import JS Browser App Render Steps SelectionFacts.
Local Open Scope handler_scope.

Lemma react_PredictSettled (settled : Settled) (w : World) :
  react (PredictSettled settled) w = exec (handlePredict_await settled) w.
Proof.
  apply react_no_effect. world w. destruct settled; reflexivity.
Qed.

Lemma react_Submit (w : World) :
  react Submit w = exec clickSubmit w.
Proof.
  apply react_no_effect. world w. turn. unfold submitDisabled. simpl.
  destruct loading0, selectedFile0; reflexivity.
Qed.

Lemma or_fallback_truthy (v : Value) :
  truthy (or v (Str fallbackMessage)) = true.
Proof. unfold or. destruct (truthy v) eqn:E; [exact E | reflexivity]. Qed.

(** C2, as the code has it.  [handlePredict] sends a request exactly when a
    file is selected: without a file it sets the error message "Please select
    an image first" and sends nothing; with a file it sends one request,
    whether or not another one is out.  The guard against submitting while
    loading is the submit button: it is disabled while loading (and while no
    file is selected), so a click on it then changes nothing and sends
    nothing. *)
Theorem handlePredict_request_guard (w : World) :
  (selectedFile (state w) = None ->
   exec handlePredict w = exec (setError (Str noFileMessage)) w /\
   error (state (exec handlePredict w)) = Str noFileMessage /\
   requests (exec handlePredict w) = requests w) /\
  (forall f, selectedFile (state w) = Some f ->
   requests (exec handlePredict w) =
     (requests w ++ [predictRequest f (selectedModel (state w))])%list /\
   loading (state (exec handlePredict w)) = true) /\
  (loading (state w) = true -> react Submit w = w) /\
  (selectedFile (state w) = None -> react Submit w = w) /\
  (forall f, loading (state w) = false -> selectedFile (state w) = Some f ->
   react Submit w = exec handlePredict w).
Proof.
  rewrite react_Submit. world w. simpl.
  split; [|split; [|split; [|split]]].
  - intros ->. repeat split.
  - intros f ->. repeat split.
  - intros ->. reflexivity.
  - intros ->. turn. unfold submitDisabled. simpl.
    now rewrite orb_true_r.
  - intros f -> ->. reflexivity.
Qed.

Lemma handlePredict_request_guard_witness :
  let chosen := react (FileChange [Scenario.smear]) mount in
  let sent := react Submit chosen in
  (error (state (exec handlePredict mount)) = Str noFileMessage /\
   requests (exec handlePredict mount) = requests mount) /\
  requests (exec handlePredict chosen) =
    (requests chosen ++ [predictRequest Scenario.smear "vgg16"])%list /\
  react Submit sent = sent /\
  react Submit mount = mount /\
  sent = exec handlePredict chosen.
Proof.
  intros chosen sent.
  pose proof (handlePredict_request_guard mount) as [Hnone [_ [_ [Hoff _]]]].
  pose proof (handlePredict_request_guard chosen) as [_ [Hsome [_ [_ Hon]]]].
  pose proof (handlePredict_request_guard sent) as [_ [_ [Hbusy _]]].
  split; [|split; [|split; [|split]]].
  - split; apply (Hnone eq_refl).
  - apply (Hsome Scenario.smear eq_refl).
  - apply (Hbusy eq_refl).
  - apply (Hoff eq_refl).
  - apply (Hon Scenario.smear eq_refl eq_refl).
Defined.

(** C2 fails as stated: called in a loading state, [handlePredict] sends a
    second request. *)
Lemma handlePredict_while_loading_sends_again :
  let w := react Submit (react (FileChange [Scenario.smear]) mount) in
  loading (state w) = true /\
  requests w =
    [Get (metricsUrl "vgg16"); predictRequest Scenario.smear "vgg16"] /\
  requests (exec handlePredict w) =
    [Get (metricsUrl "vgg16"); predictRequest Scenario.smear "vgg16";
     predictRequest Scenario.smear "vgg16"] /\
  exec handlePredict w <> w.
Proof.
  repeat split. intros H. apply (f_equal requests) in H. discriminate H.
Qed.




(** C4.  When the inference request fails, the error message is the [error]
    field of the reply's body, as received, when the body has one (a
    non-empty string, or any other truthy value), and "Failed to make
    prediction" in every other case: no reply at all, a body without [error],
    a body that is not an object, an empty [error].  Either way the request
    ends as a failure, loading over and a truthy error message set, and the
    prediction is left alone. *)
Theorem handlePredict_failure_message (w : World) (err : AxiosError) :
  let w' := react (PredictSettled (Rejected err)) w in
  (forall r props message,
      response err = Some r -> data r = Obj props ->
      lookup "error" props = Str message -> message <> "" ->
      error (state w') = Str message) /\
  (forall r, response err = Some r ->
             truthy (get_opt (data r) "error") = true ->
             error (state w') = get_opt (data r) "error") /\
  (response err = None -> error (state w') = Str fallbackMessage) /\
  (forall r, response err = Some r ->
             truthy (get_opt (data r) "error") = false ->
             error (state w') = Str fallbackMessage) /\
  (loading (state w') = false /\ truthy (error (state w')) = true) /\
  prediction (state w') = prediction (state w) /\
  requests w' = requests w.
Proof.
  intros w'. subst w'. rewrite react_PredictSettled.
  destruct err as [resp]. world w. turn. unfold serverError. simpl.
  split; [|split; [|split; [|split; [|split; [|split]]]]].
  - intros r props message -> Hd Hl Hne. rewrite Hd.
    change (get_opt (Obj props) "error") with (lookup "error" props).
    rewrite Hl. unfold or. simpl.
    destruct (String.eqb_spec message ""); [contradiction | reflexivity].
  - intros r -> Ht. unfold or. rewrite Ht. reflexivity.
  - intros ->. reflexivity.
  - intros r -> Ht. unfold or. rewrite Ht. reflexivity.
  - split; [reflexivity | apply or_fallback_truthy].
  - reflexivity.
  - reflexivity.
Qed.

(** The scenario of the specification: HTTP 400 with the body
    [{error: "file too large"}]. *)
Lemma handlePredict_failure_message_witness :
  let sent := react Submit (react (FileChange [Scenario.smear]) mount) in
  error (state (react (PredictSettled (settle (Some Scenario.replyTooLarge)))
                      sent))
  = Str "file too large" /\
  error (state (react (PredictSettled (settle None)) sent))
  = Str "Failed to make prediction" /\
  error (state (react (PredictSettled (settle (Some Scenario.replyServerDown)))
                      sent))
  = Str "Failed to make prediction".
Proof.
  intros sent. split; [|split].
  - apply (proj1 (handlePredict_failure_message sent
                    (mkAxiosError (Some Scenario.replyTooLarge)))
                 Scenario.replyTooLarge
                 [("error", Str "file too large")]
                 "file too large" eq_refl eq_refl eq_refl).
    discriminate.
  - apply (proj1 (proj2 (proj2 (handlePredict_failure_message sent
                                  (mkAxiosError None)))) eq_refl).
  - apply (proj1 (proj2 (proj2 (proj2 (handlePredict_failure_message sent
                    (mkAxiosError (Some Scenario.replyServerDown))))))
                 Scenario.replyServerDown eq_refl eq_refl).
Defined.

End InferenceFacts.

(** ** More on the presentation values *)
Module TierFacts.
Import JS Presentation Observations NumberFacts PresentationFacts.

(** Above a positive threshold, and below something else: that something is
    above the threshold too. *)
Lemma gt_le_trans (mt : positive) (et : Z) (a b : Number) :
  gt a (S754_finite false mt et) = true ->
  le a b = true ->
  gt b (S754_finite false mt et) = true.
Proof.
  unfold gt, le, SFltb, SFleb.
  destruct a as [sa|sa| |sa ma ea]; try (simpl; discriminate).
  - destruct sa; try (simpl; discriminate). intros _.
    destruct b as [sb|sb| |sb mb eb]; try (simpl; discriminate).
    destruct sb; simpl; [discriminate | reflexivity].
  - destruct sa; try (simpl; discriminate).
    rewrite SFcompare_pos_finite.
    destruct b as [sb|sb| |sb mb eb]; try (simpl; discriminate).
    + destruct sb; simpl; [discriminate | reflexivity].
    + destruct sb; try (simpl; discriminate).
      rewrite !SFcompare_pos_finite.
      destruct (Z.compare_spec et ea) as [Hta|Hta|Hta];
        destruct (Z.compare_spec ea eb) as [Hab|Hab|Hab];
        destruct (Z.compare_spec et eb) as [Htb|Htb|Htb];
        try discriminate; try reflexivity; try lia;
        destruct (Pos.compare_spec mt ma) as [H1|H1|H1];
        destruct (Pos.compare_spec ma mb) as [H2|H2|H2];
        destruct (Pos.compare_spec mt mb) as [H3|H3|H3];
        try discriminate; try reflexivity; lia.
Qed.

(** X1. The tier never goes down when the confidence goes up: for numbers
    [a <= b], the colour of [b] ranks at least as high as the colour of
    [a]. *)
Theorem getConfidenceColor_monotone (a b : Number) :
  le a b = true ->
  tierRank (getConfidenceColor a) <= tierRank (getConfidenceColor b).
Proof.
  intros Hab. unfold getConfidenceColor.
  destruct (gt a lit_0_8) eqn:Ha8.
  - assert (Hb8 : gt b lit_0_8 = true)
      by exact (gt_le_trans _ _ a b Ha8 Hab).
    rewrite Hb8. apply le_n.
  - destruct (gt a lit_0_6) eqn:Ha6.
    + assert (Hb6 : gt b lit_0_6 = true)
        by exact (gt_le_trans _ _ a b Ha6 Hab).
      rewrite Hb6.
      destruct (gt b lit_0_8); [apply le_S|]; apply le_n.
    + apply Nat.le_0_l.
Qed.

Lemma getConfidenceColor_monotone_witness :
  le lit_0_6 lit_0_93 = true /\
  tierRank (getConfidenceColor lit_0_6)
  <= tierRank (getConfidenceColor lit_0_93).
Proof.
  split; [reflexivity|].
  apply (getConfidenceColor_monotone lit_0_6 lit_0_93). reflexivity.
Defined.

Lemma split_props_Permutation (props : list (string * Value)) :
  Permutation (map snd (indexProps props) ++ namedProps props) props.
Proof.
  unfold indexProps, namedProps.
  induction props as [|kv props IH]; simpl; [apply perm_nil|].
  unfold is_named at 1.
  destruct (array_index (fst kv)) as [n|]; simpl.
  - apply perm_skip. exact IH.
  - apply Permutation_sym. eapply perm_trans;
      [|apply Permutation_middle].
    apply perm_skip. apply Permutation_sym. exact IH.
Qed.

(** X2. Whatever the labels of a class-probability mapping are, every
    entry gets exactly one row: the rows are a permutation of the entries, so
    none is lost, none is doubled, and there are as many rows as entries. *)
Theorem orderedProbabilities_permutation (probs : list (string * Value)) :
  exists rows,
    orderedProbabilities (Obj probs) = Some rows /\
    Permutation rows probs /\
    List.length rows = List.length probs.
Proof.
  exists (ownEntries probs).
  assert (Hperm : Permutation (ownEntries probs) probs).
  { unfold ownEntries.
    eapply perm_trans; [|apply split_props_Permutation].
    apply Permutation_app_tail. apply Permutation_map.
    apply sort_index_Permutation. }
  split; [apply orderedProbabilities_Obj|].
  split; [exact Hperm | apply Permutation_length; exact Hperm].
Qed.

End TierFacts.

(** ** The metrics panel *)
Module PanelFacts.
Import JS Browser App Panel Steps SelectionFacts MetricsFacts.

Lemma truthy_get (v : Value) (k : string) :
  truthy v = true -> exists x, get v k = Some x.
Proof.
  destruct v; simpl; try discriminate; intros _; eexists; reflexivity.
Qed.

Lemma metrics_truthy (s : State) : truthy (metrics s) = true.
Proof.
  unfold metrics, or.
  destruct (truthy (evaluationMetrics s)) eqn:E; [exact E | reflexivity].
Qed.

Lemma metricValue_Obj (props : list (string * Value))
      (primary alternate : string) :
  metricValue (Obj props) primary alternate =
  Some (if truthy (lookup primary props) then lookup primary props
        else or (lookup alternate props) (Num lit_0)).
Proof.
  unfold metricValue, get.
  destruct (truthy (lookup primary props)); reflexivity.
Qed.

(** X3. Whatever the metrics state holds (nothing yet, a default, or
    anything a 2xx reply carried), reading a metric for the panel never
    throws, and the value read is either truthy or the number 0: it is never
    [undefined], [null], an empty string or NaN. *)
Theorem metricValue_never_throws (s : State) (primary alternate : string) :
  exists v,
    metricValue (metrics s) primary alternate = Some v /\
    (truthy v = true \/ v = Num lit_0).
Proof.
  unfold metricValue.
  destruct (truthy_get (metrics s) primary (metrics_truthy s)) as [a Ha].
  destruct (truthy_get (metrics s) alternate (metrics_truthy s)) as [b Hb].
  rewrite Ha. destruct (truthy a) eqn:Ta.
  - exists a. split; [reflexivity | left; exact Ta].
  - rewrite Hb. exists (or b (Num lit_0)). split; [reflexivity|].
    unfold or. destruct (truthy b) eqn:Tb; [left; exact Tb | right; reflexivity].
Qed.

(** X4. While a metrics request is out the panel is the spinner.  Once
    the spinner is gone, the panel reads 0.90, 0.90, 0.89 and 0.89 for
    accuracy, precision, recall and F1 whenever the metrics state is falsy
    (a 2xx reply had no [metrics]), and it reads them after every rejected
    metrics request. *)
Theorem panel_shows_defaults (w : World) :
  (loadingMetrics (state w) = true ->
   metricsPanel (state w) = Some MetricsSpinner) /\
  (loadingMetrics (state w) = false ->
   truthy (evaluationMetrics (state w)) = false ->
   metricsPanel (state w) =
     Some (MetricsValues (Num lit_0_90) (Num lit_0_90)
                         (Num lit_0_89) (Num lit_0_89))) /\
  (forall err,
      metricsPanel (state (react (MetricsSettled (Rejected err)) w)) =
        Some (MetricsValues (Num lit_0_90) (Num lit_0_90)
                            (Num lit_0_89) (Num lit_0_89))).
Proof.
  split; [|split].
  - intros Hbusy. unfold metricsPanel. rewrite Hbusy. reflexivity.
  - intros Hidle Hfalsy.
    unfold metricsPanel, shownAccuracy, shownPrecision, shownRecall,
      shownF1, metrics, or.
    rewrite Hidle, Hfalsy. reflexivity.
  - intros err. rewrite react_MetricsSettled. world w. reflexivity.
Qed.

Lemma panel_shows_defaults_witness :
  let answered :=
    react (MetricsSettled (Fulfilled (mkResponse 200 (Obj [])))) mount in
  metricsPanel (state mount) = Some MetricsSpinner /\
  metricsPanel (state answered) =
    Some (MetricsValues (Num lit_0_90) (Num lit_0_90)
                        (Num lit_0_89) (Num lit_0_89)).
Proof.
  intros answered. split.
  - apply (proj1 (panel_shows_defaults mount)). reflexivity.
  - apply (proj1 (proj2 (panel_shows_defaults answered))); reflexivity.
Defined.

(** X5. When the metrics state is an object, either spelling of a metric is
    accepted.  A truthy [accuracy], [precision], [recall] or [f1_score] is
    shown as it is; when that one is missing, or is 0 or otherwise falsy, a
    truthy [accuracy_score], [precision_score], [recall_score] or [f1] is
    shown instead; when both are falsy, 0 is shown. *)
Theorem panel_accepts_both_spellings
        (s : State) (props : list (string * Value)) :
  evaluationMetrics s = Obj props ->
  let shown primary alternate value :=
    (truthy (lookup primary props) = true ->
     value = Some (lookup primary props)) /\
    (truthy (lookup primary props) = false ->
     truthy (lookup alternate props) = true ->
     value = Some (lookup alternate props)) /\
    (truthy (lookup primary props) = false ->
     truthy (lookup alternate props) = false ->
     value = Some (Num lit_0)) in
  shown "accuracy" "accuracy_score" (shownAccuracy s) /\
  shown "precision" "precision_score" (shownPrecision s) /\
  shown "recall" "recall_score" (shownRecall s) /\
  shown "f1_score" "f1" (shownF1 s).
Proof.
  intros Hobj shown.
  assert (Hm : metrics s = Obj props)
    by (unfold metrics, or; rewrite Hobj; reflexivity).
  assert (Hgen : forall primary alternate,
             shown primary alternate
                   (metricValue (metrics s) primary alternate)).
  { intros primary alternate. unfold shown.
    rewrite Hm, metricValue_Obj. unfold or.
    repeat split; intros H1; try intros H2; rewrite H1;
      try rewrite H2; reflexivity. }
  repeat split; apply Hgen.
Qed.

Lemma panel_accepts_both_spellings_witness :
  shownAccuracy
    (state (react (MetricsSettled
                     (Fulfilled
                        (mkResponse 200
                           (Obj [("metrics",
                                  Obj [("accuracy_score", Num lit_0_93);
                                       ("f1", Num lit_0_89)])]))))
                  mount))
  = Some (Num lit_0_93).
Proof.
  apply (proj1 (proj2 (proj1
    (panel_accepts_both_spellings
       (state (react (MetricsSettled
                        (Fulfilled
                           (mkResponse 200
                              (Obj [("metrics",
                                     Obj [("accuracy_score", Num lit_0_93);
                                          ("f1", Num lit_0_89)])]))))
                     mount))
       [("accuracy_score", Num lit_0_93); ("f1", Num lit_0_89)]
       eq_refl))) eq_refl eq_refl).
Defined.

End PanelFacts.

(** ** Invariants of the event loop *)
Module TraceFacts.
Import JS Browser App Observations Steps.
Import SelectionFacts MetricsFacts InferenceFacts.

Lemma run_cons (e : Event) (trace : list Event) (w : World) :
  run (e :: trace) w = run trace (react e w).
Proof. reflexivity. Qed.

(** What holds at the start and is kept by every turn holds after every
    run. *)
Lemma run_invariant (P : World -> Prop) (Q : Event -> Prop) :
  (forall e w, Q e -> P w -> P (react e w)) ->
  forall trace w, Forall Q trace -> P w -> P (run trace w).
Proof.
  intros Hstep trace.
  induction trace as [|e trace IH]; intros w HQ HP; [exact HP|].
  rewrite run_cons. inversion HQ; subst. apply IH; [assumption|].
  apply Hstep; assumption.
Qed.

Lemma Forall_True (trace : list Event) : Forall (fun _ => True) trace.
Proof. induction trace; constructor; auto. Qed.

(** The world after each kind of event, cell by cell. *)
Lemma react_FileChange_nil (w : World) : react (FileChange []) w = w.
Proof. rewrite react_no_effect; reflexivity. Qed.

Lemma react_FileChange_cons (file : File) (others : list File) (w : World) :
  react (FileChange (file :: others)) w =
  {| state :=
       mkState (Some file) (Some (BlobURL (List.length (objectURLs w))))
               Null (loading (state w)) (Str "")
               (selectedModel (state w)) (evaluationMetrics (state w))
               (loadingMetrics (state w));
     requests := requests w;
     console := console w;
     objectURLs := (objectURLs w ++ [file])%list |}.
Proof. rewrite react_no_effect; world w; reflexivity. Qed.

Lemma react_ModelChange_state (modelType : string) (w : World) :
  selectedFile (state (react (ModelChange modelType) w))
  = selectedFile (state w) /\
  previewUrl (state (react (ModelChange modelType) w))
  = previewUrl (state w) /\
  loading (state (react (ModelChange modelType) w)) = loading (state w) /\
  selectedModel (state (react (ModelChange modelType) w)) = modelType /\
  objectURLs (react (ModelChange modelType) w) = objectURLs w.
Proof.
  world w. turn.
  destruct (String.eqb selectedModel0 modelType); repeat split.
Qed.

Lemma react_Submit_cases (w : World) :
  (submitDisabled (state w) = true /\ react Submit w = w) \/
  (exists f,
      selectedFile (state w) = Some f /\
      loading (state w) = false /\
      react Submit w =
      {| state :=
           mkState (Some f) (previewUrl (state w)) (prediction (state w))
                   true (Str "") (selectedModel (state w))
                   (evaluationMetrics (state w)) (loadingMetrics (state w));
         requests :=
           (requests w ++ [predictRequest f (selectedModel (state w))])%list;
         console := console w;
         objectURLs := objectURLs w |}).
Proof.
  rewrite react_Submit. world w. turn. unfold submitDisabled. simpl.
  destruct loading0; [left; split; reflexivity|].
  destruct selectedFile0 as [f|]; [|left; split; reflexivity].
  right. exists f. repeat split.
Qed.

Lemma react_MetricsSettled_frame (settled : Settled) (w : World) :
  let w' := react (MetricsSettled settled) w in
  selectedFile (state w') = selectedFile (state w) /\
  previewUrl (state w') = previewUrl (state w) /\
  loading (state w') = loading (state w) /\
  selectedModel (state w') = selectedModel (state w) /\
  requests w' = requests w /\
  objectURLs w' = objectURLs w.
Proof.
  intros w'. subst w'. rewrite react_MetricsSettled. world w.
  destruct settled as [r|err]; turn; [|repeat split].
  destruct (get (data r) "metrics"); repeat split.
Qed.

Lemma react_PredictSettled_frame (settled : Settled) (w : World) :
  let w' := react (PredictSettled settled) w in
  selectedFile (state w') = selectedFile (state w) /\
  previewUrl (state w') = previewUrl (state w) /\
  loading (state w') = false /\
  selectedModel (state w') = selectedModel (state w) /\
  requests w' = requests w /\
  objectURLs w' = objectURLs w.
Proof.
  intros w'. subst w'. rewrite react_PredictSettled. world w.
  destruct settled; repeat split.
Qed.

Lemma previewOfFile_step (e : Event) (w : World) :
  previewOfFile w -> previewOfFile (react e w).
Proof.
  unfold previewOfFile, resolveObjectURL. intros Hinv.
  destruct e as [[|file others]|modelType| |settled|settled].
  - rewrite react_FileChange_nil. exact Hinv.
  - rewrite react_FileChange_cons. simpl. apply nth_error_snoc.
  - destruct (react_ModelChange_state modelType w)
      as [-> [-> [_ [_ ->]]]]. exact Hinv.
  - destruct (react_Submit_cases w) as [[_ ->]|[f [Hf [_ ->]]]];
      [exact Hinv|].
    simpl. rewrite Hf in Hinv. exact Hinv.
  - destruct (react_MetricsSettled_frame settled w)
      as [-> [-> [_ [_ [_ ->]]]]]. exact Hinv.
  - destruct (react_PredictSettled_frame settled w)
      as [-> [-> [_ [_ [_ ->]]]]]. exact Hinv.
Qed.

(** X6. After any run of events from the first render, a preview is shown
    exactly when a file is selected, and the preview URL is an object URL of
    that very file. *)
Theorem preview_follows_file (trace : list Event) :
  let w := run trace mount in
  (selectedFile (state w) = None <-> previewUrl (state w) = None) /\
  (forall f, selectedFile (state w) = Some f ->
             exists u, previewUrl (state w) = Some u /\
                       resolveObjectURL u w = Some f).
Proof.
  intros w.
  assert (Hinv : previewOfFile w).
  { apply (run_invariant previewOfFile (fun _ => True)).
    - intros e w0 _. apply previewOfFile_step.
    - apply Forall_True.
    - exact I. }
  unfold previewOfFile in Hinv.
  destruct (selectedFile (state w)) as [f|], (previewUrl (state w)) as [u|];
    try contradiction.
  - split; [split; discriminate|].
    intros f' Hf'. inversion Hf'; subst. exists u. split; [reflexivity|exact Hinv].
  - split; [split; reflexivity|]. discriminate.
Qed.

Lemma preview_follows_file_witness :
  exists u,
    previewUrl (state (run [FileChange [Scenario.smear]; ModelChange "cnn"]
                           mount)) = Some u /\
    resolveObjectURL u (run [FileChange [Scenario.smear]; ModelChange "cnn"]
                            mount) = Some Scenario.smear.
Proof.
  apply (proj2 (preview_follows_file
                  [FileChange [Scenario.smear]; ModelChange "cnn"])
               Scenario.smear eq_refl).
Defined.

Lemma objectURLs_step (e : Event) (w : World) :
  objectURLs (react e w) = (objectURLs w ++ pickedFiles [e])%list.
Proof.
  destruct e as [[|file others]|modelType| |settled|settled]; simpl.
  - rewrite react_FileChange_nil. symmetry. apply app_nil_r.
  - rewrite react_FileChange_cons. reflexivity.
  - destruct (react_ModelChange_state modelType w) as [_ [_ [_ [_ ->]]]].
    symmetry. apply app_nil_r.
  - destruct (react_Submit_cases w) as [[_ ->]|[f [_ [_ ->]]]];
      symmetry; apply app_nil_r.
  - destruct (react_MetricsSettled_frame settled w)
      as [_ [_ [_ [_ [_ ->]]]]]. symmetry. apply app_nil_r.
  - destruct (react_PredictSettled_frame settled w)
      as [_ [_ [_ [_ [_ ->]]]]]. symmetry. apply app_nil_r.
Qed.

Lemma pickedFiles_cons (e : Event) (trace : list Event) :
  pickedFiles (e :: trace) = (pickedFiles [e] ++ pickedFiles trace)%list.
Proof.
  destruct e as [[|file others]|modelType| |settled|settled]; reflexivity.
Qed.

(** X7. Every file selection creates one object URL and none is ever given
    back: after a run of events the object URLs are those of before followed
    by one per selected file, in the order of selection, and the selected
    file is the one picked last. *)
Theorem objectURLs_accumulate (trace : list Event) (w : World) :
  objectURLs (run trace w) = (objectURLs w ++ pickedFiles trace)%list /\
  selectedFile (state (run trace w)) =
    match rev (pickedFiles trace) with
    | [] => selectedFile (state w)
    | file :: _ => Some file
    end.
Proof.
  revert w. induction trace as [|e trace IH]; intros w.
  - split; [symmetry; apply app_nil_r | reflexivity].
  - rewrite run_cons. destruct (IH (react e w)) as [IHu IHf].
    split.
    + rewrite IHu, objectURLs_step, (pickedFiles_cons e trace). symmetry.
      apply app_assoc.
    + rewrite IHf, (pickedFiles_cons e trace), rev_app_distr.
      destruct (rev (pickedFiles trace)) as [|last others] eqn:Hrev;
        [|reflexivity].
      simpl.
      destruct e as [[|file others]|modelType| |settled|settled]; simpl.
      * rewrite react_FileChange_nil. reflexivity.
      * rewrite react_FileChange_cons. reflexivity.
      * apply (react_ModelChange_state modelType w).
      * destruct (react_Submit_cases w) as [[_ ->]|[f [Hf [_ ->]]]];
          [reflexivity | simpl; symmetry; exact Hf].
      * apply (react_MetricsSettled_frame settled w).
      * apply (react_PredictSettled_frame settled w).
Qed.

Lemma lastGet_snoc_Get (rs : list Request) (u : string) :
  lastGet (rs ++ [Get u]) = Some u.
Proof. induction rs as [|r rs IH]; simpl; [|rewrite IH]; reflexivity. Qed.

Lemma lastGet_snoc_Post (rs : list Request) url formData headers :
  lastGet (rs ++ [Post url formData headers]) = lastGet rs.
Proof. induction rs as [|r rs IH]; simpl; [|rewrite IH]; reflexivity. Qed.

(** X8. After any run of events from the first render, the metrics request
    sent last is the one for the model that is selected now. *)
Theorem last_metrics_request_for_selected_model (trace : list Event) :
  lastGet (requests (run trace mount))
  = Some (metricsUrl (selectedModel (state (run trace mount)))).
Proof.
  apply (run_invariant
           (fun w => lastGet (requests w)
                     = Some (metricsUrl (selectedModel (state w))))
           (fun _ => True));
    [|apply Forall_True | reflexivity].
  intros e w _ Hinv.
  destruct e as [[|file others]|modelType| |settled|settled].
  - rewrite react_FileChange_nil. exact Hinv.
  - rewrite react_FileChange_cons. exact Hinv.
  - destruct (react_ModelChange_state modelType w) as [_ [_ [_ [-> _]]]].
    rewrite react_ModelChange_requests.
    destruct (String.eqb_spec (selectedModel (state w)) modelType)
      as [Heq|Hne].
    + rewrite app_nil_r, Hinv, Heq. reflexivity.
    + apply lastGet_snoc_Get.
  - destruct (react_Submit_cases w) as [[_ ->]|[f [_ [_ ->]]]];
      [exact Hinv|].
    simpl. unfold predictRequest. rewrite lastGet_snoc_Post. exact Hinv.
  - destruct (react_MetricsSettled_frame settled w)
      as [_ [_ [_ [-> [-> _]]]]]. exact Hinv.
  - destruct (react_PredictSettled_frame settled w)
      as [_ [_ [_ [-> [-> _]]]]]. exact Hinv.
Qed.

Lemma Forall_snoc {A : Type} (P : A -> Prop) (l : list A) (x : A) :
  Forall P l -> P x -> Forall P (l ++ [x]).
Proof.
  intros Hl Hx. apply Forall_app. split; [exact Hl|].
  constructor; [exact Hx | constructor].
Qed.

(** X9. When the model is only ever changed to one of the two values of
    the model buttons, the selected model is always one of the two, and every
    request the component sends, for metrics or for a prediction, names one
    of the two. *)
Theorem requests_name_recognized_models (trace : list Event) :
  Forall fromButtons trace ->
  recognizedModel (selectedModel (state (run trace mount))) = true /\
  Forall namesRecognizedModel (requests (run trace mount)).
Proof.
  intros Hbuttons.
  apply (run_invariant onlyRecognized fromButtons); [|exact Hbuttons|].
  - intros e w He [Hsel Hreqs]. unfold onlyRecognized.
    destruct e as [[|file others]|modelType| |settled|settled].
    + rewrite react_FileChange_nil. split; assumption.
    + rewrite react_FileChange_cons. split; assumption.
    + destruct (react_ModelChange_state modelType w) as [_ [_ [_ [-> _]]]].
      rewrite react_ModelChange_requests. simpl in He.
      split; [exact He|].
      destruct (String.eqb (selectedModel (state w)) modelType);
        [rewrite app_nil_r; exact Hreqs|].
      apply Forall_snoc; [exact Hreqs|].
      exists modelType. split; [exact He | left; reflexivity].
    + destruct (react_Submit_cases w) as [[_ ->]|[f [_ [_ ->]]]];
        [split; assumption|].
      simpl. split; [exact Hsel|].
      apply Forall_snoc; [exact Hreqs|].
      exists (selectedModel (state w)).
      split; [exact Hsel | right; exists f; reflexivity].
    + destruct (react_MetricsSettled_frame settled w)
        as [_ [_ [_ [-> [-> _]]]]]. split; assumption.
    + destruct (react_PredictSettled_frame settled w)
        as [_ [_ [_ [-> [-> _]]]]]. split; assumption.
  - split; [reflexivity|].
    constructor; [|constructor].
    exists "vgg16". split; [reflexivity | left; reflexivity].
Qed.

Lemma requests_name_recognized_models_witness :
  Forall namesRecognizedModel
         (requests (run [ModelChange "cnn";
                         FileChange [Scenario.smear];
                         Submit] mount)).
Proof.
  apply (requests_name_recognized_models
           [ModelChange "cnn"; FileChange [Scenario.smear]; Submit]).
  repeat constructor.
Defined.

Lemma posts_snoc_Post (w : World) url formData headers rs :
  rs = (requests w ++ [Post url formData headers])%list ->
  List.length (filter isPost rs) = S (posts w).
Proof.
  intros ->. unfold posts. rewrite filter_app, length_app. simpl.
  apply Nat.add_1_r.
Qed.

Lemma posts_ModelChange (modelType : string) (w : World) :
  posts (react (ModelChange modelType) w) = posts w.
Proof.
  unfold posts. rewrite react_ModelChange_requests.
  destruct (String.eqb (selectedModel (state w)) modelType);
    rewrite filter_app; simpl; rewrite app_nil_r; reflexivity.
Qed.

(** What a turn does to [loading], to the number of prediction requests
    sent, and to the presence of a file. *)
Lemma react_traffic (e : Event) (w : World) :
  let w' := react e w in
  (selectedFile (state w) <> None -> selectedFile (state w') <> None) /\
  match e with
  | PredictSettled _ => loading (state w') = false /\ posts w' = posts w
  | Submit =>
      (loading (state w') = loading (state w) /\ posts w' = posts w) \/
      (loading (state w) = false /\ loading (state w') = true /\
       posts w' = S (posts w) /\ selectedFile (state w') <> None)
  | _ => loading (state w') = loading (state w) /\ posts w' = posts w
  end.
Proof.
  intros w'. subst w'.
  destruct e as [[|file others]|modelType| |settled|settled].
  - rewrite react_FileChange_nil. repeat split. auto.
  - rewrite react_FileChange_cons. repeat split. discriminate.
  - destruct (react_ModelChange_state modelType w) as [-> [_ [-> _]]].
    rewrite posts_ModelChange. repeat split. auto.
  - destruct (react_Submit_cases w) as [[_ ->]|[f [Hf [Hl ->]]]].
    + split; [auto | left; split; reflexivity].
    + split; [discriminate|]. right. simpl. repeat split; try assumption.
      * apply (posts_snoc_Post w _ _ _ _ eq_refl).
      * discriminate.
  - destruct (react_MetricsSettled_frame settled w)
      as [-> [_ [-> [_ [Hr _]]]]].
    unfold posts. rewrite Hr. repeat split. auto.
  - destruct (react_PredictSettled_frame settled w)
      as [-> [_ [-> [_ [Hr _]]]]].
    unfold posts. rewrite Hr. repeat split. auto.
Qed.

Lemma advance_steady (e : Event) (s s' : Session) :
  advance e s = Some s' ->
  steady s ->
  world s' = react e (world s) /\
  steady s' /\
  posts (world s') + inFlight s
  = posts (world s) + inFlight s' + predictSettlements [e].
Proof.
  destruct s as [w n]. unfold advance, steady. simpl.
  pose proof (react_traffic e w) as [Hfile Htraffic].
  remember (react e w) as w' eqn:Hw'. clear Hw'.
  remember (posts w') as p' eqn:Hp'.
  remember (posts w) as p eqn:Hp.
  destruct e as [files|modelType| |settled|settled]; simpl.
  - destruct Htraffic as [Hl ->]. rewrite Nat.sub_diag, Nat.add_0_r.
    intros H Hs. inversion H; subst; simpl. rewrite Hl.
    repeat split; [|lia].
    destruct Hs as [[? [? ?]]|[? ?]]; [left | right]; auto.
  - destruct Htraffic as [Hl ->]. rewrite Nat.sub_diag, Nat.add_0_r.
    intros H Hs. inversion H; subst; simpl. rewrite Hl.
    repeat split; [|lia].
    destruct Hs as [[? [? ?]]|[? ?]]; [left | right]; auto.
  - intros H Hs. inversion H; subst; simpl.
    destruct Htraffic as [[Hl ->]|[Hl [Hl' [-> Hf']]]].
    + rewrite Nat.sub_diag, Nat.add_0_r, Hl.
      repeat split; [|lia].
      destruct Hs as [[? [? ?]]|[? ?]]; [left | right]; auto.
    + destruct Hs as [[Hbusy _]|[_ ->]]; [congruence|].
      replace (S (posts w) - posts w) with 1 by lia.
      repeat split; [|lia].
      left. auto.
  - destruct Htraffic as [Hl ->]. rewrite Nat.sub_diag, Nat.add_0_r.
    intros H Hs. inversion H; subst; simpl. rewrite Hl.
    repeat split; [|lia].
    destruct Hs as [[? [? ?]]|[? ?]]; [left | right]; auto.
  - destruct Htraffic as [Hl ->]. rewrite Nat.sub_diag.
    destruct n as [|n]; [discriminate|].
    intros H Hs. inversion H; subst; simpl.
    destruct Hs as [[_ [Hn _]]|[_ Hn]]; [|discriminate].
    inversion Hn; subst. repeat split; [|lia].
    right. auto.
Qed.

Lemma play_steady (trace : list Event) :
  forall s s',
    play trace s = Some s' ->
    steady s ->
    world s' = run trace (world s) /\
    steady s' /\
    posts (world s') + inFlight s
    = posts (world s) + inFlight s' + predictSettlements trace.
Proof.
  induction trace as [|e trace IH]; intros s s' Hplay Hs.
  - inversion Hplay; subst. repeat split; [exact Hs | simpl; lia].
  - simpl in Hplay. destruct (advance e s) as [s1|] eqn:Hadv;
      [|discriminate].
    destruct (advance_steady e s s1 Hadv Hs) as [Hw1 [Hs1 Hc1]].
    destruct (IH s1 s' Hplay Hs1) as [Hw [Hs' Hc]].
    rewrite run_cons, <- Hw1. split; [exact Hw|]. split; [exact Hs'|].
    assert (Hsplit : predictSettlements (e :: trace)
                     = predictSettlements [e] + predictSettlements trace)
      by (destruct e; reflexivity).
    rewrite Hsplit. lia.
Qed.

(** X10. In a session that starts at the first render and in which a
    prediction request settles only while one is out, there is never more
    than one prediction request out; one is out exactly while [loading] is
    set, and then a file is selected; and the requests sent are the requests
    settled plus the one that may be out. *)
Theorem one_prediction_in_flight (trace : list Event) (s : Session) :
  play trace opening = Some s ->
  world s = run trace mount /\
  inFlight s <= 1 /\
  (loading (state (world s)) = true <-> inFlight s = 1) /\
  (loading (state (world s)) = true ->
   selectedFile (state (world s)) <> None) /\
  posts (world s) = predictSettlements trace + inFlight s.
Proof.
  intros Hplay.
  assert (Hopen : steady opening) by (right; split; reflexivity).
  destruct (play_steady trace opening s Hplay Hopen) as [Hw [Hs Hc]].
  split; [exact Hw|].
  change (posts (world opening)) with 0 in Hc.
  change (inFlight opening) with 0 in Hc.
  destruct Hs as [[Hl [Hn Hf]]|[Hl Hn]]; rewrite Hl, Hn in *.
  - repeat split; try lia; try reflexivity. intros _. exact Hf.
  - repeat split; try lia; try discriminate.
Qed.

Lemma one_prediction_in_flight_witness :
  let trace := [FileChange [Scenario.smear]; Submit; Submit;
                PredictSettled (settle (Some Scenario.replyTooLarge));
                Submit] in
  let s := mkSession (run trace mount) 1 in
  play trace opening = Some s /\
  inFlight s <= 1 /\
  posts (world s) = 1 + inFlight s.
Proof.
  intros trace s.
  assert (Hplay : play trace opening = Some s) by (vm_compute; reflexivity).
  split; [exact Hplay|].
  destruct (one_prediction_in_flight trace s Hplay)
    as [_ [Hle [_ [_ Hposts]]]].
  split; [exact Hle | exact Hposts].
Defined.



(** X12. A reply is applied to whatever is selected when it arrives.  When
    the file or the model is changed while a request is out, its 2xx reply
    still becomes the prediction, next to the new file or model; had the
    reply come first, the change would have cleared it. *)
Theorem late_reply_kept (w : World) (response : Response)
        (file : File) (others : list File) (modelType : string) :
  let reply := PredictSettled (Fulfilled response) in
  (let w' := react reply (react (FileChange (file :: others)) w) in
   prediction (state w') = data response /\
   selectedFile (state w') = Some file) /\
  (let w' := react reply (react (ModelChange modelType) w) in
   prediction (state w') = data response /\
   selectedModel (state w') = modelType) /\
  prediction (state (react (FileChange (file :: others)) (react reply w)))
  = Null /\
  prediction (state (react (ModelChange modelType) (react reply w))) = Null.
Proof.
  intros reply. subst reply.
  rewrite !react_PredictSettled, react_FileChange_cons.
  split; [split; reflexivity|].
  split; [|split].
  - destruct (react_ModelChange_state modelType w) as [_ [_ [_ [Hm _]]]].
    split; [reflexivity|]. simpl. exact Hm.
  - rewrite react_FileChange_cons. reflexivity.
  - world w. turn.
    destruct (String.eqb selectedModel0 modelType); reflexivity.
Qed.

(** X14. The metrics stream and the prediction stream do not disturb each
    other: a metrics reply changes nothing a file selection, a submit click or
    a prediction reply reads or writes, so it can come before or after any of
    them with the same outcome. *)
Theorem metrics_settlement_commutes (w : World) (m : Settled) :
  (forall files,
      react (MetricsSettled m) (react (FileChange files) w)
      = react (FileChange files) (react (MetricsSettled m) w)) /\
  react (MetricsSettled m) (react Submit w)
  = react Submit (react (MetricsSettled m) w) /\
  (forall p,
      react (MetricsSettled m) (react (PredictSettled p) w)
      = react (PredictSettled p) (react (MetricsSettled m) w)).
Proof.
  split; [|split].
  - intros [|file others].
    + rewrite !react_FileChange_nil. reflexivity.
    + rewrite !react_FileChange_cons, !react_MetricsSettled. world w.
      destruct m as [r|err]; turn; [|reflexivity].
      destruct (get (data r) "metrics"); reflexivity.
  - rewrite !react_Submit, !react_MetricsSettled. world w.
    destruct m as [r|err]; turn; unfold submitDisabled; simpl;
      try destruct (get (data r) "metrics"); simpl;
      destruct loading0, selectedFile0; reflexivity.
  - intros p. rewrite !react_PredictSettled, !react_MetricsSettled. world w.
    destruct m as [r|err], p as [r'|err']; turn;
      try destruct (get (data r) "metrics"); reflexivity.
Qed.

End TraceFacts.

(** ** The two versions of the component *)
Module LegacyFacts.
Import JS Browser Steps SelectionFacts InferenceFacts TraceFacts.

Lemma shared_react (e : Legacy.Event) (w : App.World) :
  Legacy.shared (App.react (Legacy.later e) w)
  = Legacy.react e (Legacy.shared w).
Proof.
  destruct e as [[|file others]| |settled]; simpl.
  - rewrite react_FileChange_nil. reflexivity.
  - rewrite react_FileChange_cons. reflexivity.
  - destruct (react_Submit_cases w) as [[Hoff ->]|[f [Hf [Hl ->]]]].
    + unfold Legacy.clickSubmit, Legacy.shared. simpl.
      unfold App.submitDisabled in Hoff. rewrite Hoff. reflexivity.
    + unfold Legacy.clickSubmit, Legacy.handlePredict, Legacy.shared. simpl.
      rewrite Hl, Hf, flat_map_app. reflexivity.
  - rewrite react_PredictSettled. world w. destruct settled; reflexivity.
Qed.

(** X13. On file selections, submit clicks and replies, the component with
    model selection goes through the same states as the earlier component:
    after any run of such events from the first render, the file, preview,
    prediction, loading flag, error message and object URLs are the same, and
    its prediction requests are those of the earlier component with the
    [model_type] field added. *)
Theorem later_version_simulates_earlier (trace : list Legacy.Event) :
  Legacy.shared (App.run (map Legacy.later trace) App.mount)
  = Legacy.run trace Legacy.mount.
Proof.
  change Legacy.mount with (Legacy.shared App.mount).
  generalize App.mount as w.
  induction trace as [|e trace IH]; intros w; [reflexivity|].
  simpl map. rewrite run_cons, IH, shared_react. reflexivity.
Qed.

End LegacyFacts.

(** ** The render after a reply *)
Module RenderFacts.
Import JS Browser App Render Steps SelectionFacts InferenceFacts.

Lemma get_truthy (v : Value) (k : string) :
  truthy v = true -> get v k = Some (get_opt v k).
Proof.
  unfold get_opt. destruct v; simpl; try discriminate; reflexivity.
Qed.

Lemma render_without_panel (s : State) :
  truthy (prediction s) = true ->
  resultsPanel (prediction s) = None ->
  render s = None.
Proof.
  intros Ht Hp. unfold render. rewrite Ht, Hp. reflexivity.
Qed.

(** X15. A 2xx reply is stored even when it cannot be shown: when its
    body is truthy and has no string [model_type], or its [all_predictions]
    is [undefined] or [null], or its [prediction] is an object (or an array
    holding one), the render that follows throws. *)
Theorem render_throws_after_unshowable_reply
        (w : World) (response : Response) :
  truthy (data response) = true ->
  let w' := react (PredictSettled (Fulfilled response)) w in
  ((forall modelType,
       get_opt (data response) "model_type" <> Str modelType) ->
   render (state w') = None) /\
  (Object_entries (get_opt (data response) "all_predictions") = None ->
   render (state w') = None) /\
  (validChild (get_opt (data response) "prediction") = false ->
   render (state w') = None).
Proof.
  intros Ht w'.
  assert (Hp : prediction (state w') = data response)
    by (subst w'; rewrite react_PredictSettled; world w; reflexivity).
  assert (Hpanel : forall (bad : resultsPanel (data response) = None),
             render (state w') = None).
  { intros bad. apply render_without_panel; rewrite Hp; assumption. }
  unfold resultsPanel in Hpanel.
  rewrite !(get_truthy (data response) _ Ht) in Hpanel.
  split; [|split].
  - intros Hmodel. apply Hpanel.
    destruct (get_opt (data response) "model_type"); try reflexivity.
    exfalso. apply (Hmodel s). reflexivity.
  - intros Hentries. apply Hpanel.
    destruct (stringReceiver _); [|reflexivity].
    destruct (validChild _); [|reflexivity].
    unfold Presentation.orderedProbabilities. rewrite Hentries. reflexivity.
  - intros Hchild. apply Hpanel.
    destruct (stringReceiver _); [|reflexivity].
    rewrite Hchild. reflexivity.
Qed.

Lemma render_throws_after_unshowable_reply_witness :
  let sent := react Submit (react (FileChange [Scenario.smear]) mount) in
  render (state (react (PredictSettled
                          (Fulfilled
                             (mkResponse 200 Scenario.bodyNoProbabilities)))
                       sent))
  = None.
Proof.
  intros sent.
  apply (proj1 (proj2 (render_throws_after_unshowable_reply sent
                         (mkResponse 200 Scenario.bodyNoProbabilities)
                         eq_refl))).
  reflexivity.
Defined.

End RenderFacts.
